(** * Shallow embedding of the substitute-teacher resolver (src/server.js)

    The core is [findSubstitutes]: two helper normalisers
    ([normalizeDay], [extractSubjectCode]), four SQL reads against the
    attendance / timetable / subject tables, and the JavaScript
    aggregation of the rows into a per-slot report.  Around it, the HTTP
    routes, the CORS origin check and the subjects_agg CTE are embedded as
    well: a route is a function from its parameters and the store to a
    status code and a JSON body (and, for the update, the new store).

    Modelling conventions.
    - Strings are Rocq [string]s read as ASCII text: JavaScript
      [toUpperCase]/[toLowerCase] and SQL [UPPER]/[LOWER] map only the
      letters a-z / A-Z; JavaScript [trim] and the regex class [\s] are the
      ASCII white space (TAB, LF, VT, FF, CR, SPACE); SQL [TRIM] removes
      spaces only (MySQL semantics).
    - SQL comparisons are exact comparisons of the computed values, and
      string ordering is plain lexicographic ([String.leb]).
    - A table is a list of rows; a SELECT is a list comprehension; an
      [ORDER BY] is a stable insertion sort on the ordering key (SQL leaves
      the order of ties open; this fixes one admissible order).
    - Every read of the store may fail; the store record carries, per
      query, the error it rejects with (if any). *)

From Stdlib Require Import String Ascii List Bool Arith Lia Sorted Permutation.
From Stdlib Require Import NArith ZArith.
From Stdlib Require DecimalNat.
Import ListNotations.
Open Scope string_scope.
Open Scope list_scope.

(** ** Character and string primitives *)

Definition in_range (lo hi : nat) (c : ascii) : bool :=
  let n := nat_of_ascii c in Nat.leb lo n && Nat.leb n hi.

(** JavaScript white space ([trim], regex [\s]) restricted to ASCII. *)
Definition is_js_space (c : ascii) : bool :=
  in_range 9 13 c || Nat.eqb (nat_of_ascii c) 32.

(** MySQL [TRIM] removes the space character only. *)
Definition is_sql_space (c : ascii) : bool := Ascii.eqb c " "%char.

Fixpoint ltrim_by (p : ascii -> bool) (s : string) : string :=
  match s with
  | EmptyString => EmptyString
  | String c s' => if p c then ltrim_by p s' else s
  end.

Fixpoint rtrim_by (p : ascii -> bool) (s : string) : string :=
  match s with
  | EmptyString => EmptyString
  | String c s' =>
      let r := rtrim_by p s' in
      if String.eqb r "" && p c then EmptyString else String c r
  end.

Definition trim_by (p : ascii -> bool) (s : string) : string :=
  rtrim_by p (ltrim_by p s).

(** [String.prototype.trim] *)
Definition js_trim (s : string) : string := trim_by is_js_space s.
(** SQL [TRIM(x)] *)
Definition sql_trim (s : string) : string := trim_by is_sql_space s.

Fixpoint str_map (f : ascii -> ascii) (s : string) : string :=
  match s with
  | EmptyString => EmptyString
  | String c s' => String (f c) (str_map f s')
  end.

Definition char_upper (c : ascii) : ascii :=
  if in_range 97 122 c then ascii_of_nat (nat_of_ascii c - 32) else c.
Definition char_lower (c : ascii) : ascii :=
  if in_range 65 90 c then ascii_of_nat (nat_of_ascii c + 32) else c.

(** [toUpperCase] / SQL [UPPER] and [toLowerCase] / SQL [LOWER]. *)
Definition upper (s : string) : string := str_map char_upper s.
Definition lower (s : string) : string := str_map char_lower s.

Fixpoint take_while (p : ascii -> bool) (s : string) : string :=
  match s with
  | EmptyString => EmptyString
  | String c s' => if p c then String c (take_while p s') else EmptyString
  end.

(** Does [pat] occur in [s]? (SQL [s LIKE '%pat%']) *)
Fixpoint contains (pat s : string) : bool :=
  String.prefix pat s ||
  match s with
  | EmptyString => false
  | String _ s' => contains pat s'
  end.

(** ** Helpers (server.js, lines 33-50) *)

(** [normalizeDay]; [!d] holds for the empty string. *)
Definition normalizeDay (d : string) : string :=
  if String.eqb d "" then d
  else
    let up := upper (js_trim d) in
    if existsb (String.eqb up) ["THU"; "THUR"; "THURS"; "THURSDAY"]
    then "THUR"
    else substring 0 3 up.

(** [s.split(' - ')[0]]: the text before the first occurrence of the
    separator, or the whole string. It is also MySQL's
    [SUBSTRING_INDEX(s, ' - ', 1)]. *)
Fixpoint first_segment (s : string) : string :=
  match s with
  | EmptyString => EmptyString
  | String c s' =>
      if String.prefix " - " s then EmptyString else String c (first_segment s')
  end.

Definition is_code_char (c : ascii) : bool :=
  in_range 65 90 c || in_range 48 57 c || Ascii.eqb c "_"%char.
Definition is_word_char (c : ascii) : bool :=
  is_code_char c || in_range 97 122 c.

(** [/^[A-Z0-9_]+$/.test(s)] *)
Definition code_regex_test (s : string) : bool :=
  negb (String.eqb s "") &&
  forallb is_code_char (list_ascii_of_string s).

(** [s.match(/^\s*([A-Za-z0-9_]+)/)], returning capture group 1. *)
Definition match_leading_word (s : string) : option string :=
  let r := take_while is_word_char (ltrim_by is_js_space s) in
  if String.eqb r "" then None else Some r.

(** [extractSubjectCode] *)
Definition extractSubjectCode (activityDescription : string) : string :=
  if String.eqb activityDescription "" then "N/A"
  else
    let s := js_trim activityDescription in
    let part0 := first_segment s in
    let from_first :=
      if negb (String.eqb part0 "") then
        let codeCandidate := upper (js_trim part0) in
        if code_regex_test codeCandidate then Some codeCandidate else None
      else None in
    match from_first with
    | Some codeCandidate => codeCandidate
    | None =>
        match match_leading_word s with
        | Some m => upper m
        | None => "N/A"
        end
    end.

Example normalizeDay_ex1 : normalizeDay " thursday " = "THUR".
Proof. reflexivity. Qed.
Example normalizeDay_ex2 : normalizeDay "monday" = "MON".
Proof. reflexivity. Qed.
Example extract_ex1 : extractSubjectCode "MATH101 - Algebra" = "MATH101".
Proof. reflexivity. Qed.
Example extract_ex2 : extractSubjectCode "intro class" = "INTRO".
Proof. reflexivity. Qed.
Example extract_ex3 : extractSubjectCode "" = "N/A".
Proof. reflexivity. Qed.
Example extract_ex4 : extractSubjectCode "!!! - x" = "N/A".
Proof. reflexivity. Qed.
Example extract_ex5 : extractSubjectCode "  intro class" = "INTRO".
Proof. reflexivity. Qed.

(** ** Sorting ([ORDER BY], [Array.prototype.sort]) *)

Section Sort.
Variable A : Type.
Variable le : A -> A -> bool.

Fixpoint insert_by (x : A) (l : list A) : list A :=
  match l with
  | [] => [x]
  | y :: l' => if le x y then x :: y :: l' else y :: insert_by x l'
  end.

(** Stable insertion sort: equal elements keep their input order. *)
Fixpoint sort_by (l : list A) : list A :=
  match l with
  | [] => []
  | x :: l' => insert_by x (sort_by l')
  end.
End Sort.

Arguments insert_by {A} le x l.
Arguments sort_by {A} le l.

(** ** The store (tables of database TT) *)

Record teacher_row := mkTeacher {
  teacher_id : string;
  teacher_name : string;
  attendance : string }.

Record timetable_row := mkTimetable {
  tt_teacher_id : string;
  day_of_week : string;
  tt_slot_id : nat;
  activity_description : string;
  room_location : string;
  is_free : bool }.

Record time_slot := mkSlot {
  ts_slot_id : nat;
  time_range : string }.

Record assignment_row := mkAssignment {
  tsa_teacher_id : string;
  tsa_subject_code : string }.

Record subject_row := mkSubject {
  s_subject_code : string;
  subject_name : string }.

(** The reads [findSubstitutes] issues. *)
Inductive query_id := QAttendance | QAbsentTeacherInfo | QClasses | QSubs.

Record store := mkStore {
  teacher_attendance : list teacher_row;
  teacher_timetable : list timetable_row;
  time_slots : list time_slot;
  teacher_subject_assignment : list assignment_row;
  subjects : list subject_row;
  (** [Some e]: [sqldb.query] rejects with error [e] on that read. *)
  query_error : query_id -> option string }.

(** ** Results and errors of the async function *)

Inductive error :=
| Error (message : string)     (* new Error(message) *)
| DbError (cause : string).    (* the rejection of sqldb.query *)

Inductive result (A : Type) :=
| Ok (a : A)
| Throw (e : error).
Arguments Ok {A} a.
Arguments Throw {A} e.

Definition bind {A B} (m : result A) (k : A -> result B) : result B :=
  match m with
  | Ok a => k a
  | Throw e => Throw e
  end.

Notation "'let*' x ':=' m 'in' k" := (bind m (fun x => k))
  (at level 200, x name, m at level 100, k at level 200).

(** [await sqldb.query(q, params)] returning the rows [rows]. *)
Definition run_query {A} (db : store) (q : query_id) (rows : list A)
  : result (list A) :=
  match query_error db q with
  | Some e => Throw (DbError e)
  | None => Ok rows
  end.

(** ** SQL: the subjects_agg CTE (lines 53-61) *)

Record agg_row := mkAgg {
  sa_teacher_id : string;
  sa_subjects_codes : string;
  sa_subjects_detail : string }.

Definition dedup_strings (l : list string) : list string :=
  fold_left (fun acc x => if existsb (String.eqb x) acc then acc else acc ++ [x])
    l [].

Definition subjects_agg (db : store) : list agg_row :=
  let tids := dedup_strings (map tsa_teacher_id (teacher_subject_assignment db)) in
  map (fun tid =>
    let rows := filter (fun a => String.eqb (tsa_teacher_id a) tid)
                  (teacher_subject_assignment db) in
    let codes := dedup_strings (sort_by String.leb (map tsa_subject_code rows)) in
    (* LEFT JOIN subjects s ON s.subject_code = tsa.subject_code *)
    let details :=
      flat_map (fun a =>
        match filter (fun s => String.eqb (s_subject_code s) (tsa_subject_code a))
                (subjects db) with
        | [] => [(tsa_subject_code a, (tsa_subject_code a ++ " - " ++ "")%string)]
        | ss => map (fun s => (tsa_subject_code a,
                               (tsa_subject_code a ++ " - " ++ subject_name s)%string)) ss
        end) rows in
    let details_sorted :=
      map snd (sort_by (fun p q => String.leb (fst p) (fst q)) details) in
    mkAgg tid (String.concat ", " codes)
          (String.concat " | " (dedup_strings details_sorted)))
  tids.

(** [LEFT JOIN subjects_agg sa ON LOWER(sa.teacher_id) = LOWER(tid)] *)
Definition left_join_agg (db : store) (tid : string) : list (option agg_row) :=
  match filter (fun sa => String.eqb (lower (sa_teacher_id sa)) (lower tid))
          (subjects_agg db) with
  | [] => [None]
  | l => map Some l
  end.

(** ** SQL: qAttendance and qAbsentTeacherInfo (lines 74-96) *)

Definition q_attendance (db : store) (id : string) : list teacher_row :=
  firstn 1 (filter (fun t => String.eqb (lower (teacher_id t)) (lower id))
              (teacher_attendance db)).

(** Rows [(teacher_name, absent_teacher_subject_detail)]. *)
Definition q_absent_teacher_info (db : store) (id : string)
  : list (string * string) :=
  firstn 1
    (flat_map (fun ta =>
       map (fun sa =>
              (teacher_name ta,
               match sa with
               | Some r => sa_subjects_detail r   (* never NULL for a group *)
               | None => "Subject(s) Not Assigned"
               end))
           (left_join_agg db (teacher_id ta)))
     (filter (fun ta => String.eqb (lower (teacher_id ta)) (lower id))
        (teacher_attendance db))).

(** ** SQL: qClasses and qSubs (lines 103-178) *)

(** A row of the classes-to-cover selection (alias [c] in qSubs). *)
Record class_row := mkClass {
  absent_teacher_id : string;
  c_day_of_week : string;
  c_slot_id : nat;
  c_time_range : string;
  class_to_cover : string;
  c_room_location : string;
  c_is_lab : bool }.

(** [FROM teacher_timetable tt JOIN time_slots ts ON ts.slot_id = tt.slot_id
     WHERE LOWER(tt.teacher_id) = LOWER(?) AND UPPER(tt.day_of_week) = UPPER(?)
       AND tt.is_free = FALSE] *)
Definition classes_base (db : store) (id day : string) : list class_row :=
  flat_map (fun tt =>
    if String.eqb (lower (tt_teacher_id tt)) (lower id)
       && String.eqb (upper (day_of_week tt)) (upper day)
       && negb (is_free tt)
    then map (fun ts =>
           mkClass (tt_teacher_id tt) (day_of_week tt) (tt_slot_id tt)
             (time_range ts) (activity_description tt) (room_location tt)
             (contains "LAB" (upper (activity_description tt))))
           (filter (fun ts => Nat.eqb (ts_slot_id ts) (tt_slot_id tt))
              (time_slots db))
    else [])
  (teacher_timetable db).

(** qClasses: [... ORDER BY tt.slot_id] *)
Definition q_classes (db : store) (id day : string) : list class_row :=
  sort_by (fun a b => Nat.leb (c_slot_id a) (c_slot_id b))
    (classes_base db id day).

Record sub_row := mkSub {
  s_absent_teacher_id : string;
  s_slot_id : nat;
  s_time_range : string;
  s_class_to_cover : string;
  s_room_location : string;
  substitute_teacher_id : string;
  substitute_teacher_name : string;
  s_subjects_codes : string;
  s_subjects_detail : string;
  substitution_priority : string }.

Definition BEST_FIT : string := "BEST FIT (Same Subject)".
Definition GOOD_FIT : string := "GOOD FIT (Free, Any Subject)".

(** [EXISTS (SELECT 1 FROM teacher_timetable t WHERE LOWER(t.teacher_id) =
    LOWER(tid) AND UPPER(t.day_of_week) = UPPER(day) AND t.slot_id = slot
    AND t.is_free = free)] *)
Definition tt_exists (db : store) (tid day : string) (slot : nat) (free : bool)
  : bool :=
  existsb (fun t =>
    String.eqb (lower (tt_teacher_id t)) (lower tid)
    && String.eqb (upper (day_of_week t)) (upper day)
    && Nat.eqb (tt_slot_id t) slot
    && Bool.eqb (is_free t) free)
  (teacher_timetable db).

(** The [CASE WHEN EXISTS (...) THEN 'BEST FIT ...' ELSE 'GOOD FIT ...'] column. *)
Definition priority_of (db : store) (c : class_row) (s : teacher_row) : string :=
  if existsb (fun a =>
        String.eqb (lower (tsa_teacher_id a)) (lower (teacher_id s))
        && String.eqb (upper (sql_trim (tsa_subject_code a)))
                      (upper (first_segment (class_to_cover c))))
       (teacher_subject_assignment db)
  then BEST_FIT else GOOD_FIT.

(** [JOIN teacher_attendance s ON UPPER(TRIM(s.attendance)) = 'PRESENT'
     AND LOWER(s.teacher_id) <> LOWER(c.absent_teacher_id)] *)
Definition join_cond (c : class_row) (s : teacher_row) : bool :=
  String.eqb (upper (sql_trim (attendance s))) "PRESENT"
  && negb (String.eqb (lower (teacher_id s)) (lower (absent_teacher_id c))).

(** The WHERE clause: a free row exists, or no busy row exists. *)
Definition where_cond (db : store) (c : class_row) (s : teacher_row) : bool :=
  tt_exists db (teacher_id s) (c_day_of_week c) (c_slot_id c) true
  || negb (tt_exists db (teacher_id s) (c_day_of_week c) (c_slot_id c) false).

Definition subs_base (db : store) (id day : string) : list sub_row :=
  flat_map (fun c =>
    flat_map (fun s =>
      if join_cond c s && where_cond db c s then
        map (fun sa =>
          mkSub (absent_teacher_id c) (c_slot_id c) (c_time_range c)
            (class_to_cover c) (c_room_location c) (teacher_id s) (teacher_name s)
            (match sa with Some r => sa_subjects_codes r | None => "" end)
            (match sa with Some r => sa_subjects_detail r | None => "" end)
            (priority_of db c s))
          (left_join_agg db (teacher_id s))
      else [])
    (teacher_attendance db))
  (classes_base db id day).

Definition is_best (r : sub_row) : bool := String.eqb (substitution_priority r) BEST_FIT.

(** [ORDER BY c.slot_id, (substitution_priority = 'BEST FIT ...') DESC,
    s.teacher_name] *)
Definition sub_le (a b : sub_row) : bool :=
  Nat.ltb (s_slot_id a) (s_slot_id b)
  || (Nat.eqb (s_slot_id a) (s_slot_id b)
      && ((is_best a && negb (is_best b))
          || (Bool.eqb (is_best a) (is_best b)
              && String.leb (substitute_teacher_name a) (substitute_teacher_name b)))).

Definition q_subs (db : store) (id day : string) : list sub_row :=
  sort_by sub_le (subs_base db id day).

(** ** The report (lines 192-223) *)

Record candidate := mkCandidate {
  substitute_id : string;
  substitute_name : string;
  priority : string;
  subjects_codes : string;
  subjects_detail : string }.

Record coverage_slot := mkCoverage {
  slot_id : nat;
  slot : string;
  class_info : string;
  subject : string;
  room : option string;
  is_lab : bool;
  available_substitutes : list candidate }.

Record report := mkReport {
  absentName : string;
  absentTeacherSubjectDetail : string;
  schedule : list coverage_slot;
  note : option string }.

Fixpoint uint_to_string (d : Decimal.uint) : string :=
  match d with
  | Decimal.Nil => ""
  | Decimal.D0 d => String "0" (uint_to_string d)
  | Decimal.D1 d => String "1" (uint_to_string d)
  | Decimal.D2 d => String "2" (uint_to_string d)
  | Decimal.D3 d => String "3" (uint_to_string d)
  | Decimal.D4 d => String "4" (uint_to_string d)
  | Decimal.D5 d => String "5" (uint_to_string d)
  | Decimal.D6 d => String "6" (uint_to_string d)
  | Decimal.D7 d => String "7" (uint_to_string d)
  | Decimal.D8 d => String "8" (uint_to_string d)
  | Decimal.D9 d => String "9" (uint_to_string d)
  end.

(** [`${n}`] for a numeric slot id. *)
Definition nat_to_string (n : nat) : string := uint_to_string (Nat.to_uint n).

(** [`${slot_id}|${class_to_cover}`] *)
Definition slot_key (sid : nat) (desc : string) : string :=
  (nat_to_string sid ++ "|" ++ desc)%string.

(** The [Map] [byKey], in insertion order. *)
Definition key_map := list (string * coverage_slot).

Definition map_has (m : key_map) (k : string) : bool :=
  existsb (fun p => String.eqb (fst p) k) m.

Definition seed_of (row : class_row) : coverage_slot :=
  {| slot_id := c_slot_id row;
     slot := c_time_range row;
     class_info := class_to_cover row;
     subject := extractSubjectCode (class_to_cover row);
     room := if String.eqb (c_room_location row) "" then None
             else Some (c_room_location row);
     is_lab := c_is_lab row;
     available_substitutes := [] |}.

(** [for (const row of classes) { if (!byKey.has(key)) byKey.set(key, ...) }] *)
Definition add_seed (m : key_map) (row : class_row) : key_map :=
  let key := slot_key (c_slot_id row) (class_to_cover row) in
  if map_has m key then m else m ++ [(key, seed_of row)].

Definition candidate_of (s : sub_row) : candidate :=
  {| substitute_id := substitute_teacher_id s;
     substitute_name := substitute_teacher_name s;
     priority := substitution_priority s;
     subjects_codes := s_subjects_codes s;
     subjects_detail := s_subjects_detail s |}.

Definition push_substitute (cs : coverage_slot) (x : candidate) : coverage_slot :=
  {| slot_id := slot_id cs; slot := slot cs; class_info := class_info cs;
     subject := subject cs; room := room cs; is_lab := is_lab cs;
     available_substitutes := available_substitutes cs ++ [x] |}.

(** [for (const s of subs) { if (byKey.has(key))
       byKey.get(key).available_substitutes.push(...) }] *)
Definition add_sub (m : key_map) (s : sub_row) : key_map :=
  let key := slot_key (s_slot_id s) (s_class_to_cover s) in
  if map_has m key then
    map (fun p => if String.eqb (fst p) key
                  then (fst p, push_substitute (snd p) (candidate_of s))
                  else p) m
  else m.

(** [Array.from(byKey.values()).sort((a,b) => a.slot_id - b.slot_id)]
    (a stable sort). *)
Definition build_schedule (classes : list class_row) (subs : list sub_row)
  : list coverage_slot :=
  let byKey := fold_left add_sub subs (fold_left add_seed classes []) in
  sort_by (fun a b => Nat.leb (slot_id a) (slot_id b)) (map snd byKey).

(** ** findSubstitutes (lines 64-228) *)

(** The [try { ... } catch] around the phase-2 reads. *)
Definition wrap_db_failure (m : result report) : result report :=
  match m with
  | Ok r => Ok r
  | Throw _ => Throw (Error "Database query failed during substitution search.")
  end.

Definition WRAPPED_FAILURE : error :=
  Error "Database query failed during substitution search.".

Definition NOT_ABSENT_NOTE : string :=
  "Teacher is not marked as ABSENT in attendance table".

Definition findSubstitutes (db : store) (absentTeacherIdRaw targetDayRaw : string)
  : result report :=
  let absentTeacherId := js_trim absentTeacherIdRaw in
  let targetDay := normalizeDay targetDayRaw in
  if String.eqb absentTeacherId "" then Throw (Error "Invalid absent teacher ID.")
  else if String.eqb targetDay "" then Throw (Error "Invalid or missing day.")
  else
    let* attRows := run_query db QAttendance (q_attendance db absentTeacherId) in
    match attRows with
    | [] =>
        Ok (mkReport ("Teacher ID: " ++ absentTeacherId)%string "N/A" []
              (Some "Teacher not found"))
    | teacherRow :: _ =>
        let isAbsent :=
          String.eqb (upper (js_trim (attendance teacherRow))) "ABSENT" in
        let absentTeacherName :=
          if String.eqb (teacher_name teacherRow) ""
          then ("Teacher ID: " ++ absentTeacherId)%string
          else teacher_name teacherRow in
        let* absentInfo :=
          run_query db QAbsentTeacherInfo
            (q_absent_teacher_info db absentTeacherId) in
        let absentTeacherSubjectDetail :=
          match absentInfo with
          | [] => "N/A"
          | r :: _ => snd r
          end in
        if negb isAbsent then
          Ok (mkReport absentTeacherName absentTeacherSubjectDetail []
                (Some NOT_ABSENT_NOTE))
        else
          wrap_db_failure (
            let* classes :=
              run_query db QClasses (q_classes db absentTeacherId targetDay) in
            match classes with
            | [] => Ok (mkReport absentTeacherName absentTeacherSubjectDetail [] None)
            | _ :: _ =>
                let* subs :=
                  run_query db QSubs (q_subs db absentTeacherId targetDay) in
                Ok (mkReport absentTeacherName absentTeacherSubjectDetail
                      (build_schedule classes subs) None)
            end)
    end.

(** ** A sample store *)

Definition sample_db : store := {|
  teacher_attendance :=
    [ mkTeacher "T1" "Asha" "Absent";
      mkTeacher "T2" "Bala" "present";
      mkTeacher "T3" "Chen" " PRESENT ";
      mkTeacher "T4" "Dev" "PRESENT";
      mkTeacher "T5" "Eli" "ABSENT" ];
  teacher_timetable :=
    [ mkTimetable "T1" "MON" 1 "MATH101 - Algebra" "R1" false;
      mkTimetable "T1" "MON" 3 "PHY - Lab" "Lab2" false;
      mkTimetable "T1" "MON" 2 "" "" true;
      mkTimetable "T2" "MON" 1 "MATH101 - Calc" "R2" false;
      mkTimetable "T3" "mon" 1 "" "" true;
      mkTimetable "T4" "MON" 3 "CHEM - x" "R4" false ];
  time_slots := [ mkSlot 1 "09:00-10:00"; mkSlot 2 "10:00-11:00";
                  mkSlot 3 "11:00-12:00" ];
  teacher_subject_assignment :=
    [ mkAssignment "t3" " math101"; mkAssignment "T4" "PHY";
      mkAssignment "T1" "MATH101" ];
  subjects := [ mkSubject "MATH101" "Algebra"; mkSubject "PHY" "Physics" ];
  query_error := fun _ => None |}.

(** ** Auxiliary notions used by the statements *)

Definition row_key (r : class_row) : string := slot_key (c_slot_id r) (class_to_cover r).
Definition sub_key (s : sub_row) : string := slot_key (s_slot_id s) (s_class_to_cover s).

(** A coverage slot with [xs] appended to its candidate list. *)
Definition add_subs (cs : coverage_slot) (xs : list candidate) : coverage_slot :=
  {| slot_id := slot_id cs; slot := slot cs; class_info := class_info cs;
     subject := subject cs; room := room cs; is_lab := is_lab cs;
     available_substitutes := available_substitutes cs ++ xs |}.

(** [tt] is a timetable row of teacher [tid] for day [day] and slot [k], in
    the case-insensitive sense the queries use. *)
Definition entry_at (tid day : string) (k : nat) (tt : timetable_row) : Prop :=
  lower (tt_teacher_id tt) = lower tid /\ upper (day_of_week tt) = upper day /\
  tt_slot_id tt = k.

(** Eligibility of teacher [t] for slot [k] of day [day] while [absent] is
    absent (spec section 4.4). *)
Definition eligible (db : store) (absent day : string) (k : nat) (t : teacher_row)
  : Prop :=
  upper (sql_trim (attendance t)) = "PRESENT" /\
  lower (teacher_id t) <> lower absent /\
  ((exists tt, In tt (teacher_timetable db) /\ entry_at (teacher_id t) day k tt /\
               is_free tt = true) \/
   ~ (exists tt, In tt (teacher_timetable db) /\ entry_at (teacher_id t) day k tt)).

Definition same_slot_entry (a b : timetable_row) : bool :=
  String.eqb (lower (tt_teacher_id a)) (lower (tt_teacher_id b))
  && String.eqb (upper (day_of_week a)) (upper (day_of_week b))
  && Nat.eqb (tt_slot_id a) (tt_slot_id b).

(** The data model: at most one timetable row per teacher, day and slot. *)
Fixpoint entries_unique (l : list timetable_row) : bool :=
  match l with
  | [] => true
  | a :: l' => negb (existsb (same_slot_entry a) l') && entries_unique l'
  end.

(** The absent teacher's non-free timetable rows for the day. *)
Definition nonfree_entries (db : store) (id day : string) : list timetable_row :=
  filter (fun tt => String.eqb (lower (tt_teacher_id tt)) (lower id)
                    && String.eqb (upper (day_of_week tt)) (upper day)
                    && negb (is_free tt))
    (teacher_timetable db).

Definition empty_report : report := mkReport "" "" [] None.
Definition dummy_slot : coverage_slot := mkCoverage 0 "" "" "" None false [].
Definition dummy_candidate : candidate := mkCandidate "" "" "" "" "".

(** The report for teacher T1 on Monday in [sample_db], its first coverage
    slot and the two candidates of that slot. *)
Definition sample_report : report :=
  match findSubstitutes sample_db " t1 " "monday" with
  | Ok r => r
  | Throw _ => empty_report
  end.
Definition sample_slot : coverage_slot := nth 0 (schedule sample_report) dummy_slot.
Definition sample_cand1 : candidate :=
  nth 0 (available_substitutes sample_slot) dummy_candidate.
Definition sample_cand2 : candidate :=
  nth 1 (available_substitutes sample_slot) dummy_candidate.

(** The attendance row found by the case-insensitive id lookup. *)
Definition lookup_teacher (db : store) (id : string) : option teacher_row :=
  find (fun t => String.eqb (lower (teacher_id t)) (lower id)) (teacher_attendance db).

(** [teacherRow.teacher_name || `Teacher ID: ${absentTeacherId}`] *)
Definition resolved_name (t : teacher_row) (id : string) : string :=
  if String.eqb (teacher_name t) "" then ("Teacher ID: " ++ id)%string
  else teacher_name t.

(** The subject-detail summary read by qAbsentTeacherInfo. *)
Definition absent_subject_detail (db : store) (id : string) : string :=
  match q_absent_teacher_info db id with
  | [] => "N/A"
  | r :: _ => snd r
  end.

Definition entry_pair (tt : timetable_row) : nat * string :=
  (tt_slot_id tt, activity_description tt).
Definition class_pair (c : class_row) : nat * string := (c_slot_id c, class_to_cover c).
Definition coverage_pair (e : coverage_slot) : nat * string := (slot_id e, class_info e).

Definition pair_dec (p q : nat * string) : {p = q} + {p <> q}.
Proof. decide equality; [apply string_dec | apply Nat.eq_dec]. Defined.

(** Every timetable row refers to a slot of [time_slots]. *)
Definition slots_exist (db : store) : bool :=
  forallb (fun tt => existsb (fun ts => Nat.eqb (ts_slot_id ts) (tt_slot_id tt))
                       (time_slots db))
    (teacher_timetable db).

(** [sample_db] with one read failing. *)
Definition failing_on (q : query_id) : store :=
  mkStore (teacher_attendance sample_db) (teacher_timetable sample_db)
    (time_slots sample_db) (teacher_subject_assignment sample_db)
    (subjects sample_db)
    (fun q' => match q, q' with
               | QAttendance, QAttendance | QAbsentTeacherInfo, QAbsentTeacherInfo
               | QClasses, QClasses | QSubs, QSubs => Some "connect ECONNREFUSED"
               | _, _ => None
               end).

Fixpoint str_forall (p : ascii -> bool) (s : string) : bool :=
  match s with
  | EmptyString => true
  | String c s' => p c && str_forall p s'
  end.

Definition THURSDAY_SPELLINGS : list string := ["THU"; "THUR"; "THURS"; "THURSDAY"].

(** The leading letter/digit/underscore run of a string. *)
Definition leading_run (s : string) : string := take_while is_word_char s.

(** ** The HTTP layer (routes and middleware of src/server.js) *)

(** The reads the routes issue besides those of [findSubstitutes]. *)
Inductive route_query := QTeachers | QUpdateAttendance | QDebugFree | QDebugTimetable.

(** [Some e]: that read rejects with error [e]. *)
Definition route_errors := route_query -> option string.

Inductive body :=
| BMessage (message : string)                          (* { message } *)
| BTeachers (rows : list teacher_row)
| BFree (rows : list (string * string))                (* teacher_id, teacher_name *)
| BTimetable (rows : list timetable_row)
| BSubstitution (absent_teacher absent_teacher_subject : string)
    (schedule_to_cover : list coverage_slot) (note : option string).

Record response := mkResponse {
  http_status : nat;
  http_body : body }.

(** *** GET /api/teachers (lines 234-242) *)

Definition teacher_le (a b : teacher_row) : bool := String.leb (teacher_id a) (teacher_id b).


(** *** POST /api/attendance (lines 244-258) *)

(** A field of the parsed request body: [undefined] when absent.  Numbers
    are the integral ones; objects and arrays are not modelled. *)
Inductive jvalue :=
| JUndefined
| JNull
| JBool (b : bool)
| JNumber (n : Z)
| JString (s : string).

Definition js_truthy (v : jvalue) : bool :=
  match v with
  | JUndefined | JNull => false
  | JBool b => b
  | JNumber n => negb (Z.eqb n 0)
  | JString s => negb (String.eqb s "")
  end.

Definition z_to_string (n : Z) : string :=
  if Z.ltb n 0 then ("-" ++ nat_to_string (Z.to_nat (Z.opp n)))%string
  else nat_to_string (Z.to_nat n).

(** [String(v)] *)
Definition js_to_string (v : jvalue) : string :=
  match v with
  | JUndefined => "undefined"
  | JNull => "null"
  | JBool true => "true"
  | JBool false => "false"
  | JNumber n => z_to_string n
  | JString s => s
  end.

(** [UPDATE teacher_attendance SET attendance = v WHERE teacher_id = tid] *)
Definition set_attendance (db : store) (tid v : string) : store :=
  mkStore
    (map (fun t => if String.eqb (teacher_id t) tid
                   then mkTeacher (teacher_id t) (teacher_name t) v else t)
       (teacher_attendance db))
    (teacher_timetable db) (time_slots db) (teacher_subject_assignment db)
    (subjects db) (query_error db).

(** The response and the store after the request.  [affectedRows] is the
    number of rows the WHERE clause matches (the driver's default
    found-rows mode). *)
Definition post_attendance (db : store) (errs : route_errors)
    (teacherId status : jvalue) : response * store :=
  if negb (js_truthy teacherId) || negb (js_truthy status) then
    (mkResponse 400 (BMessage "Missing teacherId or status."), db)
  else
    match teacherId with
    | JString tid =>
        if Nat.ltb 50 (String.length tid) then
          (mkResponse 400 (BMessage "Invalid teacherId."), db)
        else
          let normalized := js_trim (js_to_string status) in
          match errs QUpdateAttendance with
          | Some _ => (mkResponse 500 (BMessage "Error updating attendance."), db)
          | None =>
              let affectedRows :=
                length (filter (fun t => String.eqb (teacher_id t) tid)
                          (teacher_attendance db)) in
              let db' := set_attendance db tid normalized in
              if Nat.eqb affectedRows 0 then
                (mkResponse 404 (BMessage "Teacher not found."), db')
              else
                (mkResponse 200 (BMessage ("Teacher " ++ tid ++ " marked as "
                                             ++ normalized ++ ".")%string), db')
          end
    | _ => (mkResponse 400 (BMessage "Invalid teacherId."), db)
    end.

(** *** GET /api/substitute/:teacherId/:day (lines 260-279) *)

(** [error.message] *)
Definition error_message (e : error) : string :=
  match e with
  | Error m => m
  | DbError cause => cause
  end.

Definition get_substitute (db : store) (teacherIdParam dayParam : string) : response :=
  let absentTeacherId := upper teacherIdParam in
  let targetDay := normalizeDay dayParam in
  if String.eqb absentTeacherId "" then
    mkResponse 400 (BMessage "Missing teacherId param.")
  else if String.eqb targetDay "" then
    mkResponse 400 (BMessage "Missing or invalid day param.")
  else
    match findSubstitutes db absentTeacherId targetDay with
    | Ok r =>
        mkResponse 200 (BSubstitution
          (if String.eqb (absentName r) "" then ("Teacher ID: " ++ absentTeacherId)%string
           else absentName r)
          (if String.eqb (absentTeacherSubjectDetail r) "" then "N/A"
           else absentTeacherSubjectDetail r)
          (schedule r)
          (match note r with
           | Some n => if String.eqb n "" then None else Some n
           | None => None
           end))
    | Throw e =>
        let m := error_message e in
        mkResponse 500 (BMessage ("Error fetching substitution data: "
                                  ++ (if String.eqb m "" then "unknown" else m))%string)
    end.

(** *** GET /api/debug/free/:day/:slot (lines 283-317): its query, for a
    non-negative integral slot number. *)
Definition q_debug_free (db : store) (day : string) (slot : nat) : list (string * string) :=
  map (fun s => (teacher_id s, teacher_name s))
    (sort_by teacher_le
       (filter (fun s =>
          String.eqb (upper (sql_trim (attendance s))) "PRESENT"
          && (tt_exists db (teacher_id s) day slot true
              || negb (tt_exists db (teacher_id s) day slot false)))
        (teacher_attendance db))).

(** *** GET /api/debug/timetable/:day (lines 319-331) *)

(** [s LIKE p] with the wildcards [%] and [_] and the escape character [\]. *)
Fixpoint like_match (p s : string) {struct p} : bool :=
  match p with
  | EmptyString => String.eqb s ""
  | String c p' =>
      if Ascii.eqb c "%" then
        (fix go (s : string) : bool :=
           like_match p' s || match s with
                              | EmptyString => false
                              | String _ s' => go s'
                              end) s
      else if Ascii.eqb c "_" then
        match s with
        | EmptyString => false
        | String _ s' => like_match p' s'
        end
      else if Ascii.eqb c "\" then
        match p' with
        | EmptyString =>
            (* a trailing escape character stands for itself *)
            match s with
            | String d s' => Ascii.eqb d c && String.eqb s' ""
            | EmptyString => false
            end
        | String e p'' =>
            match s with
            | String d s' => Ascii.eqb d e && like_match p'' s'
            | EmptyString => false
            end
        end
      else
        match s with
        | String d s' => Ascii.eqb d c && like_match p' s'
        | EmptyString => false
        end
  end.

(** [ORDER BY teacher_id, slot_id] *)
Definition tt_le (a b : timetable_row) : bool :=
  if String.eqb (tt_teacher_id a) (tt_teacher_id b)
  then Nat.leb (tt_slot_id a) (tt_slot_id b)
  else String.leb (tt_teacher_id a) (tt_teacher_id b).

Definition get_debug_timetable (db : store) (errs : route_errors) (dayParam : string)
  : response :=
  let day := upper dayParam in
  match errs QDebugTimetable with
  | Some _ => mkResponse 500 (BMessage "Query failed.")
  | None =>
      mkResponse 200 (BTimetable
        (sort_by tt_le
           (filter (fun t => like_match (upper day ++ "%") (upper (day_of_week t)))
              (teacher_timetable db))))
  end.

(** *** CORS (lines 11-24) *)

(** [s.split(sep)] for a one-character separator. *)
Fixpoint split_char (sep : ascii) (s : string) : list string :=
  match s with
  | EmptyString => [""]
  | String c s' =>
      let rest := split_char sep s' in
      if Ascii.eqb c sep then "" :: rest
      else match rest with
           | [] => [String c ""]
           | r :: rs => String c r :: rs
           end
  end.

(** [allowedOrigins] from [process.env.ALLOWED_ORIGINS] ("" when unset). *)
Definition allowed_origins (allowedOriginsEnv : string) : list string :=
  if String.eqb allowedOriginsEnv "" then []
  else map js_trim (split_char "," allowedOriginsEnv).

Inductive cors_outcome :=
| AllowAnyOrigin              (* cors() *)
| AllowOrigin                 (* callback(null, true) *)
| CorsError (message : string). (* callback(new Error(message)) *)

(** The decision for a request with header [Origin] (None: no header), with
    [NODE_ENV] and [ALLOWED_ORIGINS] ("" when unset). *)
Definition cors_check (nodeEnv allowedOriginsEnv : string) (origin : option string)
  : cors_outcome :=
  let allowedOrigins := allowed_origins allowedOriginsEnv in
  if String.eqb nodeEnv "production" && negb (Nat.eqb (length allowedOrigins) 0) then
    match origin with
    | None => AllowOrigin
    | Some o =>
        if String.eqb o "" then AllowOrigin
        else if existsb (String.eqb o) allowedOrigins then AllowOrigin
        else CorsError "Not allowed by CORS"
    end
  else AllowAnyOrigin.

(** Helpers of the statements below. *)

Definition report_view (r : report) : string * list coverage_slot * option string :=
  (absentTeacherSubjectDetail r, schedule r, note r).

Definition result_view (m : result report)
  : result (string * list coverage_slot * option string) :=
  match m with
  | Ok r => Ok (report_view r)
  | Throw e => Throw e
  end.

Definition no_errors : route_errors := fun _ => None.

Definition like_special (c : ascii) : bool :=
  Ascii.eqb c "%" || Ascii.eqb c "_" || Ascii.eqb c "\".

(** No two teachers whose ids differ only in letter case. *)
Fixpoint teacher_ids_unique (l : list teacher_row) : bool :=
  match l with
  | [] => true
  | t :: l' =>
      negb (existsb (fun u => String.eqb (lower (teacher_id u)) (lower (teacher_id t))) l')
      && teacher_ids_unique l'
  end.

Definition dummy_sub : sub_row := mkSub "" 0 "" "" "" "" "" "" "" "".

Definition prepend_first (e : string) (l : list string) : list string :=
  match l with
  | [] => [e]
  | r :: rs => (e ++ r)%string :: rs
  end.


(** * Generic facts *)



Section SortFacts.
Variable A : Type.
Variable le : A -> A -> bool.

Lemma insert_by_perm (x : A) (l : list A) : Permutation (insert_by le x l) (x :: l).
Proof.
  induction l as [|y l IH]; simpl; [reflexivity|].
  destruct (le x y); [reflexivity|].
  rewrite IH. apply perm_swap.
Qed.

Lemma sort_by_perm (l : list A) : Permutation (sort_by le l) l.
Proof.
  induction l as [|x l IH]; simpl; [reflexivity|].
  rewrite insert_by_perm. now apply perm_skip.
Qed.

Lemma in_sort_by (x : A) (l : list A) : In x (sort_by le l) <-> In x l.
Proof. split; apply Permutation_in; [|symmetry]; apply sort_by_perm. Qed.

Hypothesis le_total : forall x y, le x y = false -> le y x = true.
Hypothesis le_trans : forall x y z, le x y = true -> le y z = true -> le x z = true.

Let R := fun x y => le x y = true.

Lemma insert_by_sorted (x : A) (l : list A) :
  StronglySorted R l -> StronglySorted R (insert_by le x l).
Proof.
  induction l as [|y l IH]; simpl; intros Hs.
  - repeat constructor.
  - apply StronglySorted_inv in Hs as [Hl Hy].
    destruct (le x y) eqn:Hxy.
    + constructor; [now constructor|].
      constructor; [exact Hxy|].
      eapply Forall_impl; [|exact Hy]. intros z Hz. exact (le_trans _ _ _ Hxy Hz).
    + constructor; [now apply IH|].
      apply (Permutation_Forall (Permutation_sym (insert_by_perm x l))).
      constructor; [now apply le_total|exact Hy].
Qed.

Lemma sort_by_sorted (l : list A) : StronglySorted R (sort_by le l).
Proof.
  induction l as [|x l IH]; simpl; [constructor|].
  now apply insert_by_sorted.
Qed.
End SortFacts.

Arguments in_sort_by {A} le x l.

Lemma StronglySorted_filter {A} (R : A -> A -> Prop) (f : A -> bool) (l : list A) :
  StronglySorted R l -> StronglySorted R (filter f l).
Proof.
  induction l as [|x l IH]; simpl; intros Hs; [constructor|].
  apply StronglySorted_inv in Hs as [Hl Hx].
  destruct (f x); [constructor|]; auto.
  apply Forall_forall. intros y Hy. apply filter_In in Hy as [Hy _].
  now apply (proj1 (Forall_forall _ _) Hx).
Qed.

Lemma StronglySorted_map {A B} (R : B -> B -> Prop) (f : A -> B) (l : list A) :
  StronglySorted (fun x y => R (f x) (f y)) l -> StronglySorted R (map f l).
Proof.
  induction l as [|x l IH]; simpl; intros Hs; [constructor|].
  apply StronglySorted_inv in Hs as [Hl Hx].
  constructor; [auto|]. apply Forall_map. exact Hx.
Qed.

Lemma StronglySorted_split {A} (R : A -> A -> Prop) l1 x l2 y l3 :
  StronglySorted R (l1 ++ x :: l2 ++ y :: l3) -> R x y.
Proof.
  induction l1 as [|z l1 IH]; simpl; intros Hs.
  - apply StronglySorted_inv in Hs as [_ Hx].
    apply (proj1 (Forall_forall _ _) Hx). apply in_or_app. right. now left.
  - apply StronglySorted_inv in Hs as [Hs _]. auto.
Qed.

(** ** Lexicographic string order *)

Lemma ascii_compare_lt_trans (a b c : ascii) :
  Ascii.compare a b = Lt -> Ascii.compare b c <> Gt -> Ascii.compare a c = Lt.
Proof.
  unfold Ascii.compare. rewrite N.compare_lt_iff, N.compare_le_iff, N.compare_lt_iff.
  apply N.lt_le_trans.
Qed.

Lemma ascii_compare_le_lt_trans (a b c : ascii) :
  Ascii.compare a b <> Gt -> Ascii.compare b c = Lt -> Ascii.compare a c = Lt.
Proof.
  unfold Ascii.compare. rewrite N.compare_lt_iff, N.compare_le_iff, N.compare_lt_iff.
  apply N.le_lt_trans.
Qed.

Lemma ascii_compare_refl (a : ascii) : Ascii.compare a a = Eq.
Proof. unfold Ascii.compare. apply N.compare_refl. Qed.

Lemma string_compare_trans_le (s1 s2 s3 : string) :
  String.compare s1 s2 <> Gt -> String.compare s2 s3 <> Gt ->
  String.compare s1 s3 <> Gt.
Proof.
  revert s2 s3.
  induction s1 as [|a s1 IH]; intros [|b s2] [|c s3]; simpl; try congruence.
  destruct (Ascii.compare a b) eqn:Hab; intros H12; try congruence;
  destruct (Ascii.compare b c) eqn:Hbc; intros H23; try congruence.
  - apply Ascii.compare_eq_iff in Hab, Hbc. subst.
    rewrite ascii_compare_refl. eauto.
  - apply Ascii.compare_eq_iff in Hab. subst. now rewrite Hbc.
  - rewrite (ascii_compare_lt_trans a b c Hab); [congruence|congruence].
  - rewrite (ascii_compare_lt_trans a b c Hab); [congruence|congruence].
Qed.

Lemma string_leb_trans (s1 s2 s3 : string) :
  String.leb s1 s2 = true -> String.leb s2 s3 = true -> String.leb s1 s3 = true.
Proof.
  unfold String.leb.
  destruct (String.compare s1 s2) eqn:H12; try discriminate;
  destruct (String.compare s2 s3) eqn:H23; try discriminate; intros _ _;
  destruct (String.compare s1 s3) eqn:H13; auto;
  exfalso; refine (string_compare_trans_le s1 s2 s3 _ _ H13); congruence.
Qed.

Lemma string_leb_total (s1 s2 : string) :
  String.leb s1 s2 = false -> String.leb s2 s1 = true.
Proof. destruct (String.leb_total s1 s2); congruence. Qed.

Lemma sub_le_total (a b : sub_row) : sub_le a b = false -> sub_le b a = true.
Proof.
  unfold sub_le. intros H.
  apply orb_false_iff in H as [Hlt H].
  apply Nat.ltb_ge in Hlt.
  destruct (Nat.eqb_spec (s_slot_id a) (s_slot_id b)) as [Heq|Hne].
  - simpl in H. rewrite Heq, Nat.ltb_irrefl, Nat.eqb_refl. simpl.
    destruct (is_best a), (is_best b); simpl in *; try discriminate; auto;
    now apply string_leb_total.
  - apply orb_true_iff. left. apply Nat.ltb_lt. lia.
Qed.

Lemma sub_le_trans (a b c : sub_row) :
  sub_le a b = true -> sub_le b c = true -> sub_le a c = true.
Proof.
  unfold sub_le. intros Hab Hbc.
  apply orb_true_iff in Hab as [Hab|Hab]; apply orb_true_iff in Hbc as [Hbc|Hbc].
  - apply Nat.ltb_lt in Hab, Hbc. apply orb_true_iff. left. apply Nat.ltb_lt. lia.
  - apply andb_true_iff in Hbc as [Hbc _]. apply Nat.ltb_lt in Hab.
    apply Nat.eqb_eq in Hbc. apply orb_true_iff. left. apply Nat.ltb_lt. lia.
  - apply andb_true_iff in Hab as [Hab _]. apply Nat.ltb_lt in Hbc.
    apply Nat.eqb_eq in Hab. apply orb_true_iff. left. apply Nat.ltb_lt. lia.
  - apply andb_true_iff in Hab as [Hab1 Hab2]. apply andb_true_iff in Hbc as [Hbc1 Hbc2].
    apply Nat.eqb_eq in Hab1, Hbc1.
    apply orb_true_iff. right. apply andb_true_iff. split; [apply Nat.eqb_eq; lia|].
    destruct (is_best a), (is_best b), (is_best c); simpl in *; try discriminate; auto;
    eapply string_leb_trans; eauto.
Qed.

Lemma q_subs_sorted (db : store) (id day : string) :
  StronglySorted (fun a b => sub_le a b = true) (q_subs db id day).
Proof.
  apply sort_by_sorted; [exact sub_le_total | exact sub_le_trans].
Qed.

(** ** The grouping key [`${slot_id}|${class_to_cover}`] is injective *)

Fixpoint no_bar (s : string) : bool :=
  match s with
  | EmptyString => true
  | String c s' => negb (Ascii.eqb c "|"%char) && no_bar s'
  end.

Lemma uint_to_string_no_bar (d : Decimal.uint) : no_bar (uint_to_string d) = true.
Proof. induction d; simpl; auto. Qed.

Lemma uint_to_string_inj (d1 d2 : Decimal.uint) :
  uint_to_string d1 = uint_to_string d2 -> d1 = d2.
Proof.
  revert d2; induction d1; intros [] H; simpl in H; inversion H; f_equal; auto.
Qed.

Lemma bar_sep_inj (s1 s2 d1 d2 : string) :
  no_bar s1 = true -> no_bar s2 = true ->
  (s1 ++ String "|" d1)%string = (s2 ++ String "|" d2)%string ->
  s1 = s2 /\ d1 = d2.
Proof.
  revert s2; induction s1 as [|a s1 IH]; intros [|b s2] H1 H2 H; simpl in *.
  - injection H as H. auto.
  - injection H as Hb _. subst b. simpl in H2. discriminate.
  - injection H as Ha _. subst a. simpl in H1. discriminate.
  - injection H as <- H. apply andb_true_iff in H1 as [_ H1].
    apply andb_true_iff in H2 as [_ H2].
    destruct (IH s2 H1 H2 H) as [-> ->]. auto.
Qed.

Lemma slot_key_inj (n1 n2 : nat) (d1 d2 : string) :
  slot_key n1 d1 = slot_key n2 d2 -> n1 = n2 /\ d1 = d2.
Proof.
  unfold slot_key, nat_to_string. simpl. intros H.
  apply bar_sep_inj in H as [H ->]; try apply uint_to_string_no_bar.
  split; [|reflexivity].
  apply DecimalNat.Unsigned.to_uint_inj. now apply uint_to_string_inj.
Qed.

Lemma slot_key_eqb (n1 n2 : nat) (d1 d2 : string) :
  String.eqb (slot_key n1 d1) (slot_key n2 d2) = Nat.eqb n1 n2 && String.eqb d1 d2.
Proof.
  destruct (String.eqb_spec (slot_key n1 d1) (slot_key n2 d2)) as [H|H].
  - apply slot_key_inj in H as [-> ->]. now rewrite Nat.eqb_refl, String.eqb_refl.
  - destruct (Nat.eqb_spec n1 n2), (String.eqb_spec d1 d2); subst; auto.
Qed.

(** ** The grouping of findSubstitutes *)

Lemma add_subs_nil (cs : coverage_slot) : add_subs cs [] = cs.
Proof. destruct cs; unfold add_subs; simpl; now rewrite app_nil_r. Qed.

Lemma add_subs_push (cs : coverage_slot) (x : candidate) (xs : list candidate) :
  add_subs (push_substitute cs x) xs = add_subs cs (x :: xs).
Proof. destruct cs; unfold add_subs, push_substitute; simpl; now rewrite <- app_assoc. Qed.

Lemma add_sub_map (m : key_map) (s : sub_row) :
  add_sub m s =
  map (fun p => if String.eqb (fst p) (sub_key s)
                then (fst p, push_substitute (snd p) (candidate_of s)) else p) m.
Proof.
  unfold add_sub, sub_key. destruct (map_has m _) eqn:Hhas; [reflexivity|].
  induction m as [|[k v] m IH]; simpl in *; [reflexivity|].
  apply orb_false_iff in Hhas as [Hk Hhas]. rewrite Hk. f_equal. auto.
Qed.

Lemma fold_add_sub (subs : list sub_row) (m : key_map) :
  fold_left add_sub subs m =
  map (fun p => (fst p, add_subs (snd p)
                   (map candidate_of
                      (filter (fun s => String.eqb (fst p) (sub_key s)) subs)))) m.
Proof.
  revert m; induction subs as [|s subs IH]; intros m; cbn [fold_left filter map].
  - induction m as [|[k v] m IHm]; cbn [map fst snd]; [reflexivity|].
    rewrite add_subs_nil. f_equal. exact IHm.
  - rewrite IH, add_sub_map, map_map. apply map_ext. intros [k v]; simpl.
    destruct (String.eqb k (sub_key s)); simpl; [|reflexivity].
    now rewrite add_subs_push.
Qed.

Lemma seeds_spec (classes : list class_row) :
  let m := fold_left add_seed classes [] in
  NoDup (map fst m) /\
  (forall r, In r classes -> In (row_key r) (map fst m)) /\
  (forall p, In p m -> exists l1 r l2, classes = l1 ++ r :: l2 /\
      (forall r', In r' l1 -> row_key r' <> row_key r) /\ p = (row_key r, seed_of r)).
Proof.
  induction classes as [|x classes IH] using rev_ind; simpl.
  - repeat split; [constructor | tauto | tauto].
  - rewrite fold_left_app. simpl.
    destruct IH as (Hnd & Hin & Hfirst).
    set (m := fold_left add_seed classes []) in *.
    unfold add_seed. fold (row_key x).
    destruct (map_has m (row_key x)) eqn:Hhas.
    + repeat split; [exact Hnd| |].
      * intros r Hr. apply in_app_or in Hr as [Hr|[<-|[]]]; [auto|].
        unfold map_has in Hhas. apply existsb_exists in Hhas as [[k v] [Hkv Hk]].
        apply String.eqb_eq in Hk. simpl in Hk. subst k.
        apply (in_map fst) in Hkv. exact Hkv.
      * intros p Hp. destruct (Hfirst p Hp) as (l1 & r & l2 & Hc & Hne & ->).
        exists l1, r, (l2 ++ [x]). split; [|auto]. rewrite Hc, <- app_assoc. reflexivity.
    + assert (Hnotin : ~ In (row_key x) (map fst m)).
      { intros Hk. apply in_map_iff in Hk as [[k v] [Hk Hkv]]. simpl in Hk. subst k.
        unfold map_has in Hhas.
        assert (Ht : existsb (fun p => String.eqb (fst p) (row_key x)) m = true).
        { apply existsb_exists. exists (row_key x, v). simpl.
          split; [exact Hkv|apply String.eqb_refl]. }
        congruence. }
      repeat split.
      * rewrite map_app. simpl. apply NoDup_app; auto.
        -- repeat constructor. tauto.
        -- intros k Hk [<-|[]]. tauto.
      * intros r Hr. rewrite map_app. apply in_or_app.
        apply in_app_or in Hr as [Hr|[<-|[]]]; [left; auto|right; now left].
      * intros p Hp. apply in_app_or in Hp as [Hp|[<-|[]]].
        -- destruct (Hfirst p Hp) as (l1 & r & l2 & Hc & Hne & ->).
           exists l1, r, (l2 ++ [x]). split; [|auto]. rewrite Hc, <- app_assoc. reflexivity.
        -- exists classes, x, []. repeat split; auto.
           intros r' Hr' Heq. apply Hnotin. rewrite <- Heq. auto.
Qed.

Lemma filter_sub_key (r : class_row) (subs : list sub_row) :
  filter (fun s => String.eqb (row_key r) (sub_key s)) subs =
  filter (fun s => Nat.eqb (c_slot_id r) (s_slot_id s)
                   && String.eqb (class_to_cover r) (s_class_to_cover s)) subs.
Proof. apply filter_ext. intros s. unfold row_key, sub_key. apply slot_key_eqb. Qed.

Lemma in_build_schedule (classes : list class_row) (subs : list sub_row)
  (e : coverage_slot) :
  In e (build_schedule classes subs) ->
  exists l1 r l2, classes = l1 ++ r :: l2 /\
    (forall r', In r' l1 -> row_key r' <> row_key r) /\
    e = add_subs (seed_of r)
          (map candidate_of
             (filter (fun s => Nat.eqb (c_slot_id r) (s_slot_id s)
                               && String.eqb (class_to_cover r) (s_class_to_cover s))
                subs)).
Proof.
  unfold build_schedule. rewrite in_sort_by, fold_add_sub, map_map.
  intros He. apply in_map_iff in He as [p [He Hp]].
  destruct (proj2 (proj2 (seeds_spec classes)) p Hp) as (l1 & r & l2 & Hc & Hne & ->).
  exists l1, r, l2. repeat split; auto.
  rewrite <- He. simpl. now rewrite filter_sub_key.
Qed.

Lemma avail_in_build_schedule (classes : list class_row) (subs : list sub_row)
  (e : coverage_slot) :
  In e (build_schedule classes subs) ->
  (exists c, In c classes /\ c_slot_id c = slot_id e /\ class_to_cover c = class_info e) /\
  (forall x, In x (available_substitutes e) <->
     exists s, In s subs /\ s_slot_id s = slot_id e /\
               s_class_to_cover s = class_info e /\ x = candidate_of s).
Proof.
  intros He. apply in_build_schedule in He as (l1 & r & l2 & Hc & _ & ->).
  split.
  - exists r. split; [rewrite Hc; apply in_or_app; right; now left|auto].
  - intros x. simpl. split.
    + intros Hx. apply in_map_iff in Hx as [s [<- Hs]].
      apply filter_In in Hs as [Hs Hm]. apply andb_true_iff in Hm as [H1 H2].
      apply Nat.eqb_eq in H1. apply String.eqb_eq in H2. eauto.
    + intros (s & Hs & H1 & H2 & ->). apply in_map. apply filter_In.
      split; [exact Hs|]. rewrite H1, H2, Nat.eqb_refl, String.eqb_refl. reflexivity.
Qed.

Lemma findSubstitutes_schedule (db : store) (idRaw dayRaw : string) (r : report) :
  findSubstitutes db idRaw dayRaw = Ok r ->
  schedule r = [] \/
  schedule r = build_schedule (q_classes db (js_trim idRaw) (normalizeDay dayRaw))
                              (q_subs db (js_trim idRaw) (normalizeDay dayRaw)).
Proof.
  unfold findSubstitutes, bind, run_query, wrap_db_failure. cbv zeta.
  destruct (String.eqb (js_trim idRaw) ""); [discriminate|].
  destruct (String.eqb (normalizeDay dayRaw) ""); [discriminate|].
  destruct (query_error db QAttendance); [discriminate|].
  destruct (q_attendance db (js_trim idRaw)); [intros H; injection H as <-; now left|].
  destruct (query_error db QAbsentTeacherInfo); [discriminate|].
  destruct (negb _); [intros H; injection H as <-; now left|].
  destruct (query_error db QClasses); [discriminate|].
  destruct (q_classes db (js_trim idRaw) (normalizeDay dayRaw));
    [intros H; injection H as <-; now left|].
  destruct (query_error db QSubs); [discriminate|].
  intros H; injection H as <-. right. reflexivity.
Qed.

(** ** Rows of the SQL selections *)

Lemma in_classes_base (db : store) (id day : string) (c : class_row) :
  In c (classes_base db id day) <->
  exists tt ts, In tt (teacher_timetable db) /\
    lower (tt_teacher_id tt) = lower id /\ upper (day_of_week tt) = upper day /\
    is_free tt = false /\ In ts (time_slots db) /\ ts_slot_id ts = tt_slot_id tt /\
    c = mkClass (tt_teacher_id tt) (day_of_week tt) (tt_slot_id tt)
          (time_range ts) (activity_description tt) (room_location tt)
          (contains "LAB" (upper (activity_description tt))).
Proof.
  unfold classes_base. rewrite in_flat_map. split.
  - intros [tt [Htt Hc]].
    destruct (String.eqb_spec (lower (tt_teacher_id tt)) (lower id)); [|contradiction].
    destruct (String.eqb_spec (upper (day_of_week tt)) (upper day)); [|contradiction].
    destruct (is_free tt) eqn:Hf; [contradiction|]. simpl in Hc.
    apply in_map_iff in Hc as [ts [<- Hts]]. apply filter_In in Hts as [Hts Hk].
    apply Nat.eqb_eq in Hk. exists tt, ts. repeat split; auto.
  - intros (tt & ts & Htt & H1 & H2 & H3 & Hts & Hk & ->). exists tt. split; [auto|].
    rewrite H1, H2, H3, !String.eqb_refl. simpl.
    apply in_map_iff. exists ts. split; [reflexivity|].
    apply filter_In. split; [auto|]. now apply Nat.eqb_eq.
Qed.

Lemma in_subs_base (db : store) (id day : string) (s : sub_row) :
  In s (subs_base db id day) <->
  exists c t sa, In c (classes_base db id day) /\ In t (teacher_attendance db) /\
    join_cond c t = true /\ where_cond db c t = true /\
    In sa (left_join_agg db (teacher_id t)) /\
    s = mkSub (absent_teacher_id c) (c_slot_id c) (c_time_range c)
          (class_to_cover c) (c_room_location c) (teacher_id t) (teacher_name t)
          (match sa with Some r => sa_subjects_codes r | None => "" end)
          (match sa with Some r => sa_subjects_detail r | None => "" end)
          (priority_of db c t).
Proof.
  unfold subs_base. rewrite in_flat_map. split.
  - intros [c [Hc Hs]]. apply in_flat_map in Hs as [t [Ht Hs]].
    destruct (join_cond c t) eqn:Hj; [|contradiction].
    destruct (where_cond db c t) eqn:Hw; [|contradiction]. simpl in Hs.
    apply in_map_iff in Hs as [sa [<- Hsa]]. exists c, t, sa. repeat split; auto.
  - intros (c & t & sa & Hc & Ht & Hj & Hw & Hsa & ->). exists c. split; [auto|].
    apply in_flat_map. exists t. split; [auto|]. rewrite Hj, Hw. simpl.
    apply in_map_iff. exists sa. auto.
Qed.

Lemma left_join_agg_nonempty (db : store) (tid : string) :
  exists sa, In sa (left_join_agg db tid).
Proof.
  unfold left_join_agg.
  destruct (filter _ (subjects_agg db)) as [|x l]; [exists None; now left|].
  exists (Some x). now left.
Qed.

Lemma tt_exists_spec (db : store) (tid day : string) (k : nat) (free : bool) :
  tt_exists db tid day k free = true <->
  exists tt, In tt (teacher_timetable db) /\ entry_at tid day k tt /\ is_free tt = free.
Proof.
  unfold tt_exists, entry_at. rewrite existsb_exists. split.
  - intros [tt [Htt H]]. repeat rewrite andb_true_iff in H.
    destruct H as [[[H1 H2] H3] H4].
    apply String.eqb_eq in H1, H2. apply Nat.eqb_eq in H3. apply Bool.eqb_prop in H4.
    exists tt. auto.
  - intros (tt & Htt & (H1 & H2 & H3) & H4). exists tt. split; [auto|].
    rewrite H1, H2, H3, H4, !String.eqb_refl, Nat.eqb_refl, Bool.eqb_reflx. reflexivity.
Qed.

Lemma in_q_subs_matching (db : store) (id day : string) (k : nat) (desc : string)
  (s : sub_row) :
  In s (q_subs db id day) -> s_slot_id s = k -> s_class_to_cover s = desc ->
  exists c t sa, In c (classes_base db id day) /\ In t (teacher_attendance db) /\
    join_cond c t = true /\ where_cond db c t = true /\
    In sa (left_join_agg db (teacher_id t)) /\
    c_slot_id c = k /\ class_to_cover c = desc /\
    candidate_of s =
      {| substitute_id := teacher_id t; substitute_name := teacher_name t;
         priority := priority_of db c t;
         subjects_codes := match sa with Some r => sa_subjects_codes r | None => "" end;
         subjects_detail := match sa with Some r => sa_subjects_detail r | None => "" end |}.
Proof.
  unfold q_subs. rewrite in_sort_by, in_subs_base.
  intros (c & t & sa & Hc & Ht & Hj & Hw & Hsa & ->) Hk Hd. simpl in Hk, Hd.
  exists c, t, sa. repeat split; auto.
Qed.

Lemma StronglySorted_weaken {A} (R R' : A -> A -> Prop) (l : list A) :
  (forall a b, In a l -> In b l -> R a b -> R' a b) ->
  StronglySorted R l -> StronglySorted R' l.
Proof.
  induction l as [|x l IH]; intros Himp Hs; [constructor|].
  apply StronglySorted_inv in Hs as [Hs Hx]. constructor.
  - apply IH; [|exact Hs]. intros a b Ha Hb. apply Himp; now right.
  - rewrite Forall_forall in *. intros y Hy. apply Himp; [now left|now right|auto].
Qed.

(** * The claims *)

(** C10: every coverage slot of the report comes from a row of the absent
    teacher's classes query (same slot id and class description), and every
    candidate attached to a slot comes from a candidate row carrying exactly
    that slot id and class description: a candidate row whose key matches no
    seed creates no slot and is attached to no other slot. *)
Theorem build_schedule_from_seeds (classes : list class_row) (subs : list sub_row)
  (e : coverage_slot) :
  In e (build_schedule classes subs) ->
  (exists c, In c classes /\ c_slot_id c = slot_id e /\ class_to_cover c = class_info e) /\
  (forall x, In x (available_substitutes e) ->
     exists s, In s subs /\ s_slot_id s = slot_id e /\
               s_class_to_cover s = class_info e /\ x = candidate_of s).
Proof.
  intros He. destruct (avail_in_build_schedule classes subs e He) as [Hc Hx].
  split; [exact Hc|]. intros x. apply Hx.
Qed.

Lemma build_schedule_from_seeds_witness :
  In sample_slot (build_schedule (q_classes sample_db "T1" "MON")
                                 (q_subs sample_db "T1" "MON")) /\
  (exists c, In c (q_classes sample_db "T1" "MON") /\
     c_slot_id c = slot_id sample_slot /\ class_to_cover c = class_info sample_slot) /\
  (forall x, In x (available_substitutes sample_slot) ->
     exists s, In s (q_subs sample_db "T1" "MON") /\ s_slot_id s = slot_id sample_slot /\
               s_class_to_cover s = class_info sample_slot /\ x = candidate_of s).
Proof.
  split; [vm_compute; left; reflexivity|].
  apply build_schedule_from_seeds. vm_compute. left. reflexivity.
Defined.

(** C3: a candidate's tier is "BEST FIT (Same Subject)" exactly when the
    candidate has a subject assignment whose code (SQL-trimmed, upper-cased)
    equals the upper-cased part of the slot's class description before the
    first " - "; otherwise it is "GOOD FIT (Free, Any Subject)". *)
Theorem candidate_tier (db : store) (idRaw dayRaw : string) (r : report)
  (e : coverage_slot) (x : candidate) :
  findSubstitutes db idRaw dayRaw = Ok r ->
  In e (schedule r) -> In x (available_substitutes e) ->
  let same_subject :=
    exists a, In a (teacher_subject_assignment db) /\
      lower (tsa_teacher_id a) = lower (substitute_id x) /\
      upper (sql_trim (tsa_subject_code a)) = upper (first_segment (class_info e)) in
  (priority x = BEST_FIT /\ same_subject) \/ (priority x = GOOD_FIT /\ ~ same_subject).
Proof.
  intros Hr He Hx. cbv zeta.
  destruct (findSubstitutes_schedule db idRaw dayRaw r Hr) as [Hs|Hs];
    rewrite Hs in He; [destruct He|].
  apply avail_in_build_schedule in He as [_ Havail].
  apply Havail in Hx as (s & Hs' & Hk & Hd & ->).
  destruct (in_q_subs_matching _ _ _ _ _ s Hs' Hk Hd)
    as (c & t & sa & _ & _ & _ & _ & _ & _ & Hcd & ->).
  simpl. rewrite <- Hcd. unfold priority_of.
  destruct (existsb _ _) eqn:Hex; [left|right]; split; auto.
  - apply existsb_exists in Hex as [a [Ha Hm]]. apply andb_true_iff in Hm as [H1 H2].
    apply String.eqb_eq in H1, H2. eauto.
  - intros (a & Ha & H1 & H2).
    assert (Ht : existsb (fun a =>
        String.eqb (lower (tsa_teacher_id a)) (lower (teacher_id t))
        && String.eqb (upper (sql_trim (tsa_subject_code a)))
                      (upper (first_segment (class_to_cover c))))
       (teacher_subject_assignment db) = true).
    { apply existsb_exists. exists a. split; [auto|]. now rewrite H1, H2, !String.eqb_refl. }
    congruence.
Qed.

Lemma candidate_tier_witness :
  findSubstitutes sample_db " t1 " "monday" = Ok sample_report /\
  In sample_slot (schedule sample_report) /\
  In sample_cand1 (available_substitutes sample_slot) /\
  let same_subject :=
    exists a, In a (teacher_subject_assignment sample_db) /\
      lower (tsa_teacher_id a) = lower (substitute_id sample_cand1) /\
      upper (sql_trim (tsa_subject_code a)) = upper (first_segment (class_info sample_slot)) in
  (priority sample_cand1 = BEST_FIT /\ same_subject) \/
  (priority sample_cand1 = GOOD_FIT /\ ~ same_subject).
Proof.
  split; [vm_compute; reflexivity|].
  split; [vm_compute; left; reflexivity|].
  split; [vm_compute; left; reflexivity|].
  apply (candidate_tier sample_db " t1 " "monday" sample_report);
    vm_compute; [reflexivity|left; reflexivity|left; reflexivity].
Defined.

Lemma best_fit_neq_good_fit : BEST_FIT <> GOOD_FIT.
Proof. discriminate. Qed.

(** C2: within each coverage slot's candidate list, no "GOOD FIT" candidate
    comes before a "BEST FIT" one, and two candidates of the same tier appear
    in ascending (lexicographic) name order. *)
Theorem candidates_ordered (db : store) (idRaw dayRaw : string) (r : report)
  (e : coverage_slot) (l1 : list candidate) (x : candidate) (l2 : list candidate)
  (y : candidate) (l3 : list candidate) :
  findSubstitutes db idRaw dayRaw = Ok r -> In e (schedule r) ->
  available_substitutes e = l1 ++ x :: l2 ++ y :: l3 ->
  ~ (priority x = GOOD_FIT /\ priority y = BEST_FIT) /\
  (priority x = priority y ->
   String.leb (substitute_name x) (substitute_name y) = true).
Proof.
  intros Hr He Hl.
  destruct (findSubstitutes_schedule db idRaw dayRaw r Hr) as [Hs|Hs];
    rewrite Hs in He; [destruct He|].
  apply in_build_schedule in He as (p1 & c & p2 & _ & _ & ->).
  simpl in Hl.
  set (subs := q_subs db (js_trim idRaw) (normalizeDay dayRaw)) in *.
  set (sel := filter _ subs) in Hl.
  assert (Hsorted : StronglySorted (fun a b => sub_le a b = true) sel)
    by (apply StronglySorted_filter; apply q_subs_sorted).
  apply (StronglySorted_weaken _
           (fun a b => ~ (priority (candidate_of a) = GOOD_FIT /\
                          priority (candidate_of b) = BEST_FIT) /\
                       (priority (candidate_of a) = priority (candidate_of b) ->
                        String.leb (substitute_name (candidate_of a))
                                   (substitute_name (candidate_of b)) = true)))
    in Hsorted.
  - apply (StronglySorted_map
             (fun u v => ~ (priority u = GOOD_FIT /\ priority v = BEST_FIT) /\
                         (priority u = priority v ->
                          String.leb (substitute_name u) (substitute_name v) = true))
             candidate_of) in Hsorted.
    rewrite Hl in Hsorted.
    exact (StronglySorted_split _ _ _ _ _ _ Hsorted).
  - intros a b Ha Hb Hab. unfold sel in Ha, Hb.
    apply filter_In in Ha as [_ Ha]. apply filter_In in Hb as [_ Hb].
    apply andb_true_iff in Ha as [Ha _]. apply andb_true_iff in Hb as [Hb _].
    apply Nat.eqb_eq in Ha, Hb.
    unfold sub_le in Hab. rewrite <- Ha, <- Hb, Nat.ltb_irrefl, Nat.eqb_refl in Hab.
    simpl in Hab. unfold is_best in Hab. simpl.
    split.
    + intros [HA HB]. rewrite HA, HB in Hab. simpl in Hab. discriminate.
    + intros Heq. rewrite Heq in Hab.
      destruct (String.eqb (substitution_priority b) BEST_FIT); simpl in Hab; exact Hab.
Qed.

Lemma candidates_ordered_witness :
  findSubstitutes sample_db " t1 " "monday" = Ok sample_report /\
  In sample_slot (schedule sample_report) /\
  available_substitutes sample_slot = [] ++ sample_cand1 :: [] ++ sample_cand2 :: [] /\
  ~ (priority sample_cand1 = GOOD_FIT /\ priority sample_cand2 = BEST_FIT) /\
  (priority sample_cand1 = priority sample_cand2 ->
   String.leb (substitute_name sample_cand1) (substitute_name sample_cand2) = true).
Proof.
  split; [vm_compute; reflexivity|].
  split; [vm_compute; left; reflexivity|].
  split; [vm_compute; reflexivity|].
  apply (candidates_ordered sample_db " t1 " "monday" sample_report sample_slot
           [] sample_cand1 [] sample_cand2 []);
    vm_compute; [reflexivity|left; reflexivity|reflexivity].
Defined.

Lemma same_slot_entry_sym (a b : timetable_row) :
  same_slot_entry a b = same_slot_entry b a.
Proof.
  unfold same_slot_entry.
  now rewrite (String.eqb_sym (lower (tt_teacher_id a))),
              (String.eqb_sym (upper (day_of_week a))), Nat.eqb_sym.
Qed.

Lemma entries_unique_eq (l : list timetable_row) (a b : timetable_row) :
  entries_unique l = true -> In a l -> In b l -> same_slot_entry a b = true -> a = b.
Proof.
  induction l as [|h l IH]; simpl; intros Hu Ha Hb Hab; [contradiction|].
  apply andb_true_iff in Hu as [Hn Hu]. apply negb_true_iff in Hn.
  assert (Hnot : forall z, In z l -> same_slot_entry h z = true -> False).
  { intros z Hz Hhz. assert (existsb (same_slot_entry h) l = true)
      by (apply existsb_exists; eauto). congruence. }
  destruct Ha as [<-|Ha], Hb as [<-|Hb]; auto.
  - exfalso. eauto.
  - exfalso. rewrite same_slot_entry_sym in Hab. eauto.
Qed.

Lemma entry_at_same (tid day : string) (k : nat) (a b : timetable_row) :
  entry_at tid day k a -> entry_at tid day k b -> same_slot_entry a b = true.
Proof.
  intros (Ha1 & Ha2 & Ha3) (Hb1 & Hb2 & Hb3). unfold same_slot_entry.
  rewrite Ha1, Hb1, Ha2, Hb2, Ha3, Hb3, !String.eqb_refl, Nat.eqb_refl. reflexivity.
Qed.

Lemma entry_at_day (tid d1 d2 : string) (k : nat) (tt : timetable_row) :
  upper d1 = upper d2 -> entry_at tid d1 k tt -> entry_at tid d2 k tt.
Proof. intros Hd (H1 & H2 & H3). repeat split; congruence. Qed.

(** C1: for a resolution and any slot of its schedule, the slot's candidate
    list holds exactly the teachers that are PRESENT (SQL-trimmed,
    upper-cased), are not the absent teacher (case-insensitively), and for
    that day and slot have a free timetable row or no timetable row at all;
    with one timetable row per teacher, day and slot (the data model), no
    candidate is the absent teacher or has a busy row for that day and slot. *)
Theorem candidates_exactly_eligible (db : store) (idRaw dayRaw : string)
  (r : report) (e : coverage_slot) :
  entries_unique (teacher_timetable db) = true ->
  findSubstitutes db idRaw dayRaw = Ok r -> In e (schedule r) ->
  let a := js_trim idRaw in
  let d := normalizeDay dayRaw in
  (forall t, In t (teacher_attendance db) -> eligible db a d (slot_id e) t ->
     exists x, In x (available_substitutes e) /\
       substitute_id x = teacher_id t /\ substitute_name x = teacher_name t) /\
  (forall x, In x (available_substitutes e) ->
     exists t, In t (teacher_attendance db) /\ substitute_id x = teacher_id t /\
       substitute_name x = teacher_name t /\ eligible db a d (slot_id e) t) /\
  (forall x, In x (available_substitutes e) ->
     lower (substitute_id x) <> lower a /\
     ~ (exists tt, In tt (teacher_timetable db) /\
          entry_at (substitute_id x) d (slot_id e) tt /\ is_free tt = false)).
Proof.
  intros Hu Hr He. cbv zeta.
  destruct (findSubstitutes_schedule db idRaw dayRaw r Hr) as [Hs|Hs];
    rewrite Hs in He; [destruct He|].
  apply avail_in_build_schedule in He as [(c & Hc & Hck & Hcd) Havail].
  set (a := js_trim idRaw) in *. set (d := normalizeDay dayRaw) in *.
  (* the candidates that are present are the eligible teachers *)
  assert (Hfwd : forall x, In x (available_substitutes e) ->
     exists t, In t (teacher_attendance db) /\ substitute_id x = teacher_id t /\
       substitute_name x = teacher_name t /\ eligible db a d (slot_id e) t).
  { intros x Hx. apply Havail in Hx as (s & Hs' & Hk & Hd & ->).
    destruct (in_q_subs_matching _ _ _ _ _ s Hs' Hk Hd)
      as (c' & t & sa & Hc' & Ht & Hj & Hw & _ & Hc'k & _ & ->).
    apply in_classes_base in Hc'
      as (tt & ts & _ & Hid & Hday & _ & _ & _ & ->).
    simpl in Hc'k. exists t. simpl. repeat split; auto.
    - unfold join_cond in Hj. apply andb_true_iff in Hj as [Hp _].
      now apply String.eqb_eq.
    - unfold join_cond in Hj. apply andb_true_iff in Hj as [_ Hn].
      apply negb_true_iff, String.eqb_neq in Hn. simpl in Hn. congruence.
    - unfold where_cond in Hw. simpl in Hw. rewrite <- Hc'k.
      apply orb_true_iff in Hw as [Hw|Hw].
      + apply tt_exists_spec in Hw as (tt' & Htt' & Hat & Hf).
        left. exists tt'. split; [auto|]. split; [|auto].
        eapply entry_at_day; [|exact Hat]. exact Hday.
      + apply negb_true_iff in Hw.
        destruct (existsb (fun tt' => String.eqb (lower (tt_teacher_id tt')) (lower (teacher_id t))
                   && String.eqb (upper (day_of_week tt')) (upper d)
                   && Nat.eqb (tt_slot_id tt') (tt_slot_id tt)
                   && is_free tt') (teacher_timetable db)) eqn:Hfree.
        * left. apply existsb_exists in Hfree as [tt' [Htt' Hm]].
          repeat rewrite andb_true_iff in Hm. destruct Hm as [[[H1 H2] H3] H4].
          apply String.eqb_eq in H1, H2. apply Nat.eqb_eq in H3.
          exists tt'. repeat split; auto.
        * right. intros (tt' & Htt' & (H1 & H2 & H3)).
          destruct (is_free tt') eqn:Hf'.
          -- assert (existsb (fun tt' => String.eqb (lower (tt_teacher_id tt')) (lower (teacher_id t))
                   && String.eqb (upper (day_of_week tt')) (upper d)
                   && Nat.eqb (tt_slot_id tt') (tt_slot_id tt)
                   && is_free tt') (teacher_timetable db) = true).
             { apply existsb_exists. exists tt'. split; [auto|].
               now rewrite H1, H2, H3, Hf', !String.eqb_refl, Nat.eqb_refl. }
             congruence.
          -- assert (tt_exists db (teacher_id t) (day_of_week tt) (tt_slot_id tt) false = true).
             { apply tt_exists_spec. exists tt'. repeat split; auto. congruence. }
             congruence. }
  split; [|split; [exact Hfwd|intros x Hx; split]].
  - intros t Ht (Hp & Hne & Hav).
    destruct (left_join_agg_nonempty db (teacher_id t)) as [sa Hsa].
    apply in_sort_by in Hc. apply in_classes_base in Hc as
      (tt & ts & Htt & Hid & Hday & Hfree & Hts & Htsk & Hceq).
    set (s := mkSub (absent_teacher_id c) (c_slot_id c) (c_time_range c)
          (class_to_cover c) (c_room_location c) (teacher_id t) (teacher_name t)
          (match sa with Some r => sa_subjects_codes r | None => "" end)
          (match sa with Some r => sa_subjects_detail r | None => "" end)
          (priority_of db c t)).
    exists (candidate_of s). split; [|split; reflexivity].
    apply Havail. exists s. repeat split; auto.
    unfold q_subs. apply in_sort_by, in_subs_base.
    exists c, t, sa. repeat split; auto.
    + rewrite Hceq. apply in_classes_base. exists tt, ts. repeat split; auto.
    + unfold join_cond. rewrite Hp, String.eqb_refl. simpl.
      apply negb_true_iff, String.eqb_neq. rewrite Hceq. simpl. congruence.
    + unfold where_cond. rewrite Hceq. simpl. rewrite <- Hck, Hceq in Hav. simpl in Hav.
      destruct Hav as [(tt' & Htt' & Hat & Hf)|Hnone].
      * apply orb_true_iff. left. apply tt_exists_spec. exists tt'.
        repeat split; auto; try apply Hat. destruct Hat as (_ & H2 & _). congruence.
      * apply orb_true_iff. right. apply negb_true_iff.
        destruct (tt_exists db (teacher_id t) (day_of_week tt) (tt_slot_id tt) false)
          eqn:Hb; [|reflexivity].
        exfalso. apply tt_exists_spec in Hb as (tt' & Htt' & Hat & _).
        apply Hnone. exists tt'. split; [auto|]. eapply entry_at_day; [|exact Hat]. auto.
  - destruct (Hfwd x Hx) as (t & _ & Hid & _ & _ & Hne & _). congruence.
  - intros (tt & Htt & Hat & Hbusy).
    destruct (Hfwd x Hx)
      as (t & _ & Hid & _ & _ & _ & [(tt' & Htt' & Hat' & Hf)|Hnone]).
    + rewrite Hid in Hat.
      assert (tt' = tt) by (eapply entries_unique_eq; eauto; eapply entry_at_same; eauto).
      congruence.
    + apply Hnone. exists tt. rewrite <- Hid. auto.
Qed.

Lemma candidates_exactly_eligible_witness :
  entries_unique (teacher_timetable sample_db) = true /\
  findSubstitutes sample_db " t1 " "monday" = Ok sample_report /\
  In sample_slot (schedule sample_report) /\
  let a := js_trim " t1 " in
  let d := normalizeDay "monday" in
  (forall t, In t (teacher_attendance sample_db) ->
     eligible sample_db a d (slot_id sample_slot) t ->
     exists x, In x (available_substitutes sample_slot) /\
       substitute_id x = teacher_id t /\ substitute_name x = teacher_name t) /\
  (forall x, In x (available_substitutes sample_slot) ->
     exists t, In t (teacher_attendance sample_db) /\ substitute_id x = teacher_id t /\
       substitute_name x = teacher_name t /\ eligible sample_db a d (slot_id sample_slot) t) /\
  (forall x, In x (available_substitutes sample_slot) ->
     lower (substitute_id x) <> lower a /\
     ~ (exists tt, In tt (teacher_timetable sample_db) /\
          entry_at (substitute_id x) d (slot_id sample_slot) tt /\ is_free tt = false)).
Proof.
  split; [vm_compute; reflexivity|].
  split; [vm_compute; reflexivity|].
  split; [vm_compute; left; reflexivity|].
  apply (candidates_exactly_eligible sample_db " t1 " "monday" sample_report sample_slot);
    vm_compute; [reflexivity|reflexivity|left; reflexivity].
Defined.

Lemma q_attendance_lookup (db : store) (id : string) :
  q_attendance db id =
  match lookup_teacher db id with None => [] | Some t => [t] end.
Proof.
  unfold q_attendance, lookup_teacher.
  induction (teacher_attendance db) as [|t l IH]; simpl; [reflexivity|].
  destruct (String.eqb (lower (teacher_id t)) (lower id)); [reflexivity|exact IH].
Qed.

(** C5: with a valid id and day and a working store, an unknown teacher id
    yields the report ("Teacher ID: <id>", "N/A", empty schedule, note
    "Teacher not found"), and a known teacher whose status (trimmed,
    upper-cased) is not "ABSENT" yields the resolved name, the subject
    summary, an empty schedule and the "not marked as ABSENT" note; neither
    raises, whatever the timetable holds. *)
Theorem unknown_or_not_absent_reports (db : store) (idRaw dayRaw : string) :
  js_trim idRaw <> "" -> normalizeDay dayRaw <> "" ->
  query_error db QAttendance = None ->
  (lookup_teacher db (js_trim idRaw) = None ->
   findSubstitutes db idRaw dayRaw =
   Ok (mkReport ("Teacher ID: " ++ js_trim idRaw)%string "N/A" []
         (Some "Teacher not found"))) /\
  (forall t, lookup_teacher db (js_trim idRaw) = Some t ->
   upper (js_trim (attendance t)) <> "ABSENT" ->
   query_error db QAbsentTeacherInfo = None ->
   findSubstitutes db idRaw dayRaw =
   Ok (mkReport (resolved_name t (js_trim idRaw))
         (absent_subject_detail db (js_trim idRaw)) [] (Some NOT_ABSENT_NOTE))).
Proof.
  intros Hid Hday Hq1.
  unfold findSubstitutes, bind, run_query. cbv zeta.
  apply String.eqb_neq in Hid, Hday. rewrite Hid, Hday, Hq1, q_attendance_lookup.
  split.
  - intros ->. reflexivity.
  - intros t -> Hna Hq2. rewrite Hq2.
    apply String.eqb_neq in Hna. rewrite Hna. reflexivity.
Qed.

Lemma unknown_or_not_absent_reports_witness :
  js_trim " T9 " <> "" /\ normalizeDay "mon" <> "" /\
  query_error sample_db QAttendance = None /\
  lookup_teacher sample_db (js_trim " T9 ") = None /\
  lookup_teacher sample_db (js_trim "t2") = Some (mkTeacher "T2" "Bala" "present") /\
  upper (js_trim (attendance (mkTeacher "T2" "Bala" "present"))) <> "ABSENT" /\
  query_error sample_db QAbsentTeacherInfo = None /\
  findSubstitutes sample_db " T9 " "mon" =
    Ok (mkReport ("Teacher ID: " ++ js_trim " T9 ")%string "N/A" []
          (Some "Teacher not found")) /\
  findSubstitutes sample_db "t2" "mon" =
    Ok (mkReport (resolved_name (mkTeacher "T2" "Bala" "present") (js_trim "t2"))
          (absent_subject_detail sample_db (js_trim "t2")) [] (Some NOT_ABSENT_NOTE)).
Proof.
  do 7 (split; [vm_compute; first [reflexivity | discriminate]|]).
  split.
  - apply (unknown_or_not_absent_reports sample_db " T9 " "mon");
      vm_compute; [discriminate|discriminate|reflexivity|reflexivity].
  - apply (unknown_or_not_absent_reports sample_db "t2" "mon");
      vm_compute; [discriminate|discriminate|reflexivity|reflexivity|discriminate|reflexivity].
Defined.

Lemma classes_base_nil (db : store) (id day : string) :
  nonfree_entries db id day = [] -> classes_base db id day = [].
Proof.
  intros Hn. destruct (classes_base db id day) as [|c l] eqn:Hc; [reflexivity|].
  exfalso. assert (Hin : In c (classes_base db id day)) by (rewrite Hc; now left).
  apply in_classes_base in Hin as (tt & _ & Htt & H1 & H2 & H3 & _).
  assert (In tt (nonfree_entries db id day)).
  { apply filter_In. split; [auto|]. now rewrite H1, H2, H3, !String.eqb_refl. }
  rewrite Hn in H. contradiction.
Qed.

(** C6: with a valid id and day and a working store, a known teacher marked
    ABSENT with no non-free timetable row for the day yields, without
    raising, the report with the resolved name, the subject summary, an
    empty schedule and no note. *)
Theorem absent_without_classes_report (db : store) (idRaw dayRaw : string)
  (t : teacher_row) :
  js_trim idRaw <> "" -> normalizeDay dayRaw <> "" ->
  query_error db QAttendance = None -> query_error db QAbsentTeacherInfo = None ->
  query_error db QClasses = None ->
  lookup_teacher db (js_trim idRaw) = Some t ->
  upper (js_trim (attendance t)) = "ABSENT" ->
  nonfree_entries db (js_trim idRaw) (normalizeDay dayRaw) = [] ->
  findSubstitutes db idRaw dayRaw =
  Ok (mkReport (resolved_name t (js_trim idRaw))
        (absent_subject_detail db (js_trim idRaw)) [] None).
Proof.
  intros Hid Hday Hq1 Hq2 Hq3 Ht Habs Hnone.
  unfold findSubstitutes, bind, run_query, wrap_db_failure. cbv zeta.
  apply String.eqb_neq in Hid, Hday.
  rewrite Hid, Hday, Hq1, q_attendance_lookup, Ht, Hq2, Habs, String.eqb_refl, Hq3.
  unfold q_classes. rewrite (classes_base_nil _ _ _ Hnone). reflexivity.
Qed.

Lemma absent_without_classes_report_witness :
  js_trim "T5" <> "" /\ normalizeDay "mon" <> "" /\
  query_error sample_db QAttendance = None /\
  query_error sample_db QAbsentTeacherInfo = None /\
  query_error sample_db QClasses = None /\
  lookup_teacher sample_db (js_trim "T5") = Some (mkTeacher "T5" "Eli" "ABSENT") /\
  upper (js_trim (attendance (mkTeacher "T5" "Eli" "ABSENT"))) = "ABSENT" /\
  nonfree_entries sample_db (js_trim "T5") (normalizeDay "mon") = [] /\
  findSubstitutes sample_db "T5" "mon" =
  Ok (mkReport (resolved_name (mkTeacher "T5" "Eli" "ABSENT") (js_trim "T5"))
        (absent_subject_detail sample_db (js_trim "T5")) [] None).
Proof.
  do 8 (split; [vm_compute; first [reflexivity | discriminate]|]).
  apply (absent_without_classes_report sample_db "T5" "mon");
    vm_compute; try discriminate; reflexivity.
Defined.

Lemma build_schedule_pairs (classes : list class_row) (subs : list sub_row) :
  NoDup (map coverage_pair (build_schedule classes subs)) /\
  (forall q, In q (map coverage_pair (build_schedule classes subs)) <->
             In q (map class_pair classes)).
Proof.
  destruct (seeds_spec classes) as (Hnd & Hall & Hfirst).
  set (seeds := fold_left add_seed classes []) in *.
  assert (Hfinal := fold_add_sub subs seeds).
  set (final := fold_left add_sub subs seeds) in *.
  assert (Hperm : Permutation (build_schedule classes subs) (map snd final))
    by apply sort_by_perm.
  split.
  - eapply Permutation_NoDup; [symmetry; apply Permutation_map; exact Hperm|].
    apply (NoDup_map_inv (fun q => slot_key (fst q) (snd q))).
    rewrite !map_map.
    replace (map _ final) with (map fst seeds); [exact Hnd|].
    rewrite Hfinal, map_map. apply map_ext_in. intros p Hp.
    destruct (Hfirst p Hp) as (l1 & r & l2 & _ & _ & ->). reflexivity.
  - intros q. split.
    + intros Hq. apply in_map_iff in Hq as [e [<- He]].
      apply avail_in_build_schedule in He as [(c & Hc & H1 & H2) _].
      apply in_map_iff. exists c. split; [unfold class_pair, coverage_pair; congruence|auto].
    + intros Hq. apply in_map_iff in Hq as [c [<- Hc]].
      apply Hall in Hc. apply in_map_iff in Hc as [p [Hpk Hp]].
      destruct (Hfirst p Hp) as (l1 & r & l2 & _ & _ & Hpeq). subst p. simpl in Hpk.
      apply slot_key_inj in Hpk as [Hk Hd].
      apply in_map_iff.
      exists (add_subs (seed_of r)
                (map candidate_of
                   (filter (fun s => String.eqb (row_key r) (sub_key s)) subs))).
      split; [unfold coverage_pair, class_pair; simpl; congruence|].
      apply (Permutation_in _ (Permutation_sym Hperm)).
      rewrite Hfinal. apply in_map_iff.
      exists (fst (row_key r, seed_of r),
              add_subs (seed_of r)
                (map candidate_of
                   (filter (fun s => String.eqb (row_key r) (sub_key s)) subs))).
      split; [reflexivity|].
      apply in_map_iff. exists (row_key r, seed_of r). split; [reflexivity|exact Hp].
Qed.

Lemma q_classes_pairs (db : store) (id day : string) :
  slots_exist db = true ->
  forall q, In q (map class_pair (q_classes db id day)) <->
            In q (map entry_pair (nonfree_entries db id day)).
Proof.
  intros Hsl q. unfold q_classes. split.
  - intros Hq. apply in_map_iff in Hq as [c [<- Hc]].
    apply in_sort_by, in_classes_base in Hc as (tt & ts & Htt & H1 & H2 & H3 & _ & _ & ->).
    apply in_map_iff. exists tt. split; [reflexivity|].
    apply filter_In. split; [auto|]. now rewrite H1, H2, H3, !String.eqb_refl.
  - intros Hq. apply in_map_iff in Hq as [tt [<- Htt]].
    apply filter_In in Htt as [Htt Hm].
    repeat rewrite andb_true_iff in Hm. destruct Hm as [[H1 H2] H3].
    apply String.eqb_eq in H1, H2. apply negb_true_iff in H3.
    unfold slots_exist in Hsl. rewrite forallb_forall in Hsl.
    pose proof (Hsl tt Htt) as Hts. apply existsb_exists in Hts as [ts [Hts Hk]].
    apply Nat.eqb_eq in Hk.
    apply in_map_iff.
    exists (mkClass (tt_teacher_id tt) (day_of_week tt) (tt_slot_id tt)
             (time_range ts) (activity_description tt) (room_location tt)
             (contains "LAB" (upper (activity_description tt)))).
    split; [reflexivity|]. apply in_sort_by, in_classes_base.
    exists tt, ts. repeat split; auto.
Qed.

Lemma findSubstitutes_absent_schedule (db : store) (idRaw dayRaw : string)
  (r : report) (t : teacher_row) :
  lookup_teacher db (js_trim idRaw) = Some t ->
  upper (js_trim (attendance t)) = "ABSENT" ->
  findSubstitutes db idRaw dayRaw = Ok r ->
  schedule r = build_schedule (q_classes db (js_trim idRaw) (normalizeDay dayRaw))
                              (q_subs db (js_trim idRaw) (normalizeDay dayRaw)).
Proof.
  intros Ht Habs.
  unfold findSubstitutes, bind, run_query, wrap_db_failure. cbv zeta.
  destruct (String.eqb (js_trim idRaw) ""); [discriminate|].
  destruct (String.eqb (normalizeDay dayRaw) ""); [discriminate|].
  destruct (query_error db QAttendance); [discriminate|].
  rewrite q_attendance_lookup, Ht.
  destruct (query_error db QAbsentTeacherInfo); [discriminate|].
  rewrite Habs, String.eqb_refl. simpl negb. cbv iota.
  destruct (query_error db QClasses); [discriminate|].
  destruct (q_classes db (js_trim idRaw) (normalizeDay dayRaw)).
  - intros H; injection H as <-. simpl.
    unfold build_schedule. now rewrite fold_add_sub.
  - destruct (query_error db QSubs); [discriminate|].
    intros H; injection H as <-. reflexivity.
Qed.

(** C4: for a known teacher marked ABSENT (every timetable row naming an
    existing slot), the schedule has one coverage slot per distinct
    (slot id, class description) pair among the teacher's non-free rows of
    the day — hence exactly N slots for N rows with pairwise distinct pairs —
    sorted ascending by slot id; rows sharing a pair collapse into one slot
    whose metadata is that of the first such row of the classes query. *)
Theorem schedule_one_slot_per_class (db : store) (idRaw dayRaw : string)
  (r : report) (t : teacher_row) :
  slots_exist db = true ->
  lookup_teacher db (js_trim idRaw) = Some t ->
  upper (js_trim (attendance t)) = "ABSENT" ->
  findSubstitutes db idRaw dayRaw = Ok r ->
  let E := nonfree_entries db (js_trim idRaw) (normalizeDay dayRaw) in
  let classes := q_classes db (js_trim idRaw) (normalizeDay dayRaw) in
  (NoDup (map entry_pair E) -> length (schedule r) = length E) /\
  length (schedule r) = length (nodup pair_dec (map entry_pair E)) /\
  NoDup (map coverage_pair (schedule r)) /\
  StronglySorted (fun a b => slot_id a <= slot_id b) (schedule r) /\
  (forall e, In e (schedule r) ->
     exists l1 c l2, classes = l1 ++ c :: l2 /\
       (forall c', In c' l1 -> class_pair c' <> class_pair c) /\
       e = add_subs (seed_of c) (available_substitutes e)).
Proof.
  intros Hsl Ht Habs Hr. cbv zeta.
  rewrite (findSubstitutes_absent_schedule db idRaw dayRaw r t Ht Habs Hr).
  set (classes := q_classes db (js_trim idRaw) (normalizeDay dayRaw)).
  set (subs := q_subs db (js_trim idRaw) (normalizeDay dayRaw)).
  set (E := nonfree_entries db (js_trim idRaw) (normalizeDay dayRaw)).
  destruct (build_schedule_pairs classes subs) as [Hnd Hset].
  assert (Hlen : length (build_schedule classes subs) =
                 length (nodup pair_dec (map entry_pair E))).
  { rewrite <- (length_map coverage_pair). apply Nat.le_antisymm.
    - apply NoDup_incl_length; [exact Hnd|]. intros q Hq.
      apply nodup_In. apply (q_classes_pairs db _ _ Hsl). now apply Hset.
    - apply NoDup_incl_length; [apply NoDup_nodup|]. intros q Hq.
      apply Hset. apply (q_classes_pairs db _ _ Hsl). now apply nodup_In in Hq. }
  split; [|split; [exact Hlen|split; [exact Hnd|split]]].
  - intros HE. rewrite Hlen, nodup_fixed_point by exact HE. apply length_map.
  - apply (StronglySorted_weaken (fun a b => Nat.leb (slot_id a) (slot_id b) = true)).
    + intros a b _ _ Hab. now apply Nat.leb_le.
    + apply sort_by_sorted.
      * intros a b Hab. apply Nat.leb_gt in Hab. apply Nat.leb_le. lia.
      * intros a b c Hab Hbc. apply Nat.leb_le in Hab, Hbc. apply Nat.leb_le. lia.
  - intros e He. apply in_build_schedule in He as (l1 & c & l2 & Hc & Hne & ->).
    exists l1, c, l2. split; [exact Hc|split; [|reflexivity]].
    intros c' Hc' Heq. apply (Hne c' Hc'). unfold row_key.
    unfold class_pair in Heq. injection Heq as -> ->. reflexivity.
Qed.

Lemma schedule_one_slot_per_class_witness :
  slots_exist sample_db = true /\
  lookup_teacher sample_db (js_trim " t1 ") = Some (mkTeacher "T1" "Asha" "Absent") /\
  upper (js_trim (attendance (mkTeacher "T1" "Asha" "Absent"))) = "ABSENT" /\
  findSubstitutes sample_db " t1 " "monday" = Ok sample_report /\
  let E := nonfree_entries sample_db (js_trim " t1 ") (normalizeDay "monday") in
  let classes := q_classes sample_db (js_trim " t1 ") (normalizeDay "monday") in
  (NoDup (map entry_pair E) -> length (schedule sample_report) = length E) /\
  length (schedule sample_report) = length (nodup pair_dec (map entry_pair E)) /\
  NoDup (map coverage_pair (schedule sample_report)) /\
  StronglySorted (fun a b => slot_id a <= slot_id b) (schedule sample_report) /\
  (forall e, In e (schedule sample_report) ->
     exists l1 c l2, classes = l1 ++ c :: l2 /\
       (forall c', In c' l1 -> class_pair c' <> class_pair c) /\
       e = add_subs (seed_of c) (available_substitutes e)).
Proof.
  do 4 (split; [vm_compute; reflexivity|]).
  apply (schedule_one_slot_per_class sample_db " t1 " "monday" sample_report
           (mkTeacher "T1" "Asha" "Absent")); vm_compute; reflexivity.
Defined.

(** Any failing read of phase 2 (classes, candidates) is reported as the one
    wrapped failure. *)
Lemma phase2_failure_wrapped (db : store) (idRaw dayRaw : string) (t : teacher_row) :
  js_trim idRaw <> "" -> normalizeDay dayRaw <> "" ->
  query_error db QAttendance = None -> query_error db QAbsentTeacherInfo = None ->
  lookup_teacher db (js_trim idRaw) = Some t ->
  upper (js_trim (attendance t)) = "ABSENT" ->
  (query_error db QClasses <> None \/ query_error db QSubs <> None) ->
  (exists r, findSubstitutes db idRaw dayRaw = Ok r) \/
  findSubstitutes db idRaw dayRaw = Throw WRAPPED_FAILURE.
Proof.
  intros Hid Hday Hq1 Hq2 Ht Habs _.
  unfold findSubstitutes, bind, run_query, wrap_db_failure. cbv zeta.
  apply String.eqb_neq in Hid, Hday.
  rewrite Hid, Hday, Hq1, q_attendance_lookup, Ht, Hq2, Habs, String.eqb_refl.
  simpl negb. cbv iota.
  destruct (query_error db QClasses); [right; reflexivity|].
  destruct (q_classes _ _ _); [left; eexists; reflexivity|].
  destruct (query_error db QSubs); [right; reflexivity|left; eexists; reflexivity].
Qed.

(** C7 (as the code behaves): a failure of the first two reads (attendance,
    subject summary) leaves [findSubstitutes] as the store's own error, not
    the wrapped "Database query failed during substitution search." failure
    that a failing classes read produces. *)
Theorem phase1_failure_not_wrapped :
  findSubstitutes (failing_on QAttendance) "T1" "MON" =
    Throw (DbError "connect ECONNREFUSED") /\
  findSubstitutes (failing_on QAbsentTeacherInfo) "T1" "MON" =
    Throw (DbError "connect ECONNREFUSED") /\
  findSubstitutes (failing_on QClasses) "T1" "MON" = Throw WRAPPED_FAILURE /\
  DbError "connect ECONNREFUSED" <> WRAPPED_FAILURE.
Proof.
  split; [vm_compute; reflexivity|].
  split; [vm_compute; reflexivity|].
  split; [vm_compute; reflexivity|discriminate].
Qed.

(** ** normalizeDay *)

Lemma ltrim_app_space (p : ascii -> bool) (pre s : string) :
  str_forall p pre = true -> ltrim_by p (pre ++ s) = ltrim_by p s.
Proof.
  induction pre as [|c pre IH]; simpl; [reflexivity|].
  intros H. apply andb_true_iff in H as [Hc H]. rewrite Hc. auto.
Qed.

Lemma rtrim_all_space (p : ascii -> bool) (s : string) :
  str_forall p s = true -> rtrim_by p s = "".
Proof.
  induction s as [|c s IH]; simpl; [reflexivity|].
  intros H. apply andb_true_iff in H as [Hc H]. now rewrite IH, Hc.
Qed.

Lemma rtrim_app_space (p : ascii -> bool) (v post : string) :
  str_forall (fun c => negb (p c)) v = true -> str_forall p post = true ->
  rtrim_by p (v ++ post) = v.
Proof.
  induction v as [|c v IH]; simpl; intros Hv Hp.
  - now apply rtrim_all_space.
  - apply andb_true_iff in Hv as [Hc Hv]. apply negb_true_iff in Hc.
    rewrite IH by auto. rewrite Hc, andb_false_r. reflexivity.
Qed.

Lemma js_trim_surrounded (pre v post : string) :
  v <> "" -> str_forall (fun c => negb (is_js_space c)) v = true ->
  str_forall is_js_space pre = true -> str_forall is_js_space post = true ->
  js_trim (pre ++ v ++ post) = v.
Proof.
  intros Hne Hv Hpre Hpost. unfold js_trim, trim_by.
  rewrite ltrim_app_space by exact Hpre.
  destruct v as [|c v']; [contradiction|]. simpl in Hv |- *.
  apply andb_true_iff in Hv as [Hc Hv']. apply negb_true_iff in Hc. rewrite Hc.
  apply (rtrim_app_space is_js_space (String c v') post); [|exact Hpost].
  simpl. now rewrite Hc, Hv'.
Qed.

Lemma char_upper_space (c : ascii) : is_js_space c = true -> char_upper c = c.
Proof.
  unfold is_js_space, char_upper, in_range. intros H.
  destruct (Nat.leb 97 (nat_of_ascii c) && Nat.leb (nat_of_ascii c) 122) eqn:Hr;
    [|reflexivity].
  exfalso. apply andb_true_iff in Hr as [H1 H2]. apply Nat.leb_le in H1, H2.
  apply orb_true_iff in H as [H|H].
  - apply andb_true_iff in H as [_ H]. apply Nat.leb_le in H. lia.
  - apply Nat.eqb_eq in H. lia.
Qed.

Lemma upper_no_space (v : string) :
  str_forall (fun c => negb (is_js_space c)) (upper v) = true ->
  str_forall (fun c => negb (is_js_space c)) v = true.
Proof.
  induction v as [|c v IH]; simpl; [reflexivity|].
  intros H. apply andb_true_iff in H as [Hc H]. rewrite IH by exact H.
  destruct (is_js_space c) eqn:Hs; [|reflexivity].
  rewrite char_upper_space in Hc by exact Hs. rewrite Hs in Hc. discriminate.
Qed.

Lemma normalizeDay_surrounded (w v pre post : string) :
  In w THURSDAY_SPELLINGS -> upper v = w ->
  str_forall is_js_space pre = true -> str_forall is_js_space post = true ->
  normalizeDay (pre ++ v ++ post) = "THUR".
Proof.
  intros Hw Hv Hpre Hpost.
  assert (Hne : v <> "") by
    (intros ->; subst w; unfold THURSDAY_SPELLINGS in Hw; simpl in Hw;
     repeat destruct Hw as [Hw|Hw]; try discriminate; contradiction).
  assert (Hns : str_forall (fun c => negb (is_js_space c)) v = true).
  { apply upper_no_space. rewrite Hv. unfold THURSDAY_SPELLINGS in Hw.
    simpl in Hw; repeat destruct Hw as [<-|Hw]; try reflexivity; contradiction. }
  unfold normalizeDay.
  destruct (String.eqb (pre ++ v ++ post) "") eqn:He.
  - apply String.eqb_eq in He. destruct v; [contradiction|].
    destruct pre; discriminate.
  - rewrite js_trim_surrounded by assumption. rewrite Hv.
    unfold THURSDAY_SPELLINGS in Hw. simpl in Hw; repeat destruct Hw as [<-|Hw]; try reflexivity; contradiction.
Qed.

(** ** extractSubjectCode *)

Lemma ltrim_shape (p : ascii -> bool) (d : string) :
  ltrim_by p d = "" \/ exists c u, ltrim_by p d = String c u /\ p c = false.
Proof.
  induction d as [|c d IH]; simpl; [now left|].
  destruct (p c) eqn:Hc; [exact IH|right; eauto].
Qed.

Lemma ltrim_js_trim (d : string) : ltrim_by is_js_space (js_trim d) = js_trim d.
Proof.
  unfold js_trim, trim_by.
  destruct (ltrim_shape is_js_space d) as [->|(c & u & -> & Hc)]; [reflexivity|].
  simpl. rewrite Hc, andb_false_r. simpl. now rewrite Hc.
Qed.

Lemma str_forall_list (p : ascii -> bool) (s : string) :
  str_forall p s = forallb p (list_ascii_of_string s).
Proof. induction s as [|c s IH]; simpl; [reflexivity|now rewrite IH]. Qed.

(** C8, read as stated: a non-Thursday, non-empty string maps to the
    upper-cased first three characters of the string itself.  It fails on
    [" mon"]: the code trims first and returns "MON", the stated rule gives
    " MO". *)
Lemma normalizeDay_untrimmed_counterexample :
  ~ (forall d, d <> "" -> ~ In (upper (js_trim d)) THURSDAY_SPELLINGS ->
       normalizeDay d = upper (substring 0 3 d)).
Proof.
  intros H.
  assert (Hc : normalizeDay " mon" = upper (substring 0 3 " mon")).
  { apply H; [discriminate|].
    unfold THURSDAY_SPELLINGS. vm_compute. intros Hin.
    repeat destruct Hin as [Hin|Hin]; try discriminate; contradiction. }
  vm_compute in Hc. discriminate.
Qed.

(** C8 (amended): [normalizeDay] leaves "" unchanged; a Thursday spelling
    (THU, THUR, THURS, THURSDAY in any casing, with any surrounding
    whitespace) becomes "THUR"; every other non-empty string becomes the
    first three characters of its trimmed, upper-cased form (so "" for a
    whitespace-only string). *)
Theorem normalizeDay_spec :
  normalizeDay "" = "" /\
  (forall w v pre post, In w THURSDAY_SPELLINGS -> upper v = w ->
     str_forall is_js_space pre = true -> str_forall is_js_space post = true ->
     normalizeDay (pre ++ v ++ post) = "THUR") /\
  (forall d, d <> "" -> ~ In (upper (js_trim d)) THURSDAY_SPELLINGS ->
     normalizeDay d = substring 0 3 (upper (js_trim d))).
Proof.
  split; [reflexivity|]. split; [exact normalizeDay_surrounded|].
  intros d Hne Hnot. unfold normalizeDay.
  apply String.eqb_neq in Hne. rewrite Hne.
  destruct (existsb (String.eqb (upper (js_trim d))) _) eqn:Hex; [|reflexivity].
  exfalso. apply Hnot. apply existsb_exists in Hex as (x & Hx & Heq).
  apply String.eqb_eq in Heq. subst x. exact Hx.
Qed.

Lemma normalizeDay_spec_witness :
  normalizeDay (" " ++ "Thurs" ++ String (ascii_of_nat 9) "") = "THUR" /\
  normalizeDay "  friday" = "FRI".
Proof.
  split.
  - apply (proj1 (proj2 normalizeDay_spec) "THURS" "Thurs" " "
             (String (ascii_of_nat 9) ""));
      [unfold THURSDAY_SPELLINGS; simpl; tauto | vm_compute; reflexivity
      | vm_compute; reflexivity | vm_compute; reflexivity].
  - apply (proj2 (proj2 normalizeDay_spec) "  friday");
      [discriminate | unfold THURSDAY_SPELLINGS; vm_compute; intros Hin;
       repeat destruct Hin as [Hin|Hin]; try discriminate; contradiction].
Defined.

(** C9, read as stated: when the first segment is not a code, the result is
    the upper-cased leading letter/digit/underscore run of the description
    itself.  It fails on "  intro class": the code trims the description
    first and returns "INTRO"; the leading run of the untrimmed string is
    empty, so the stated rule gives "N/A". *)
Lemma extractSubjectCode_untrimmed_counterexample :
  ~ (forall d, d <> "" ->
       code_regex_test (upper (js_trim (first_segment d))) = false ->
       extractSubjectCode d =
         (if String.eqb (leading_run d) "" then "N/A" else upper (leading_run d))).
Proof.
  intros H.
  assert (Hc := H "  intro class" ltac:(discriminate) ltac:(vm_compute; reflexivity)).
  vm_compute in Hc. discriminate.
Qed.

(** C9 (amended): [extractSubjectCode] returns "N/A" for ""; otherwise it
    trims the description, takes the text before the first " - ", and
    returns that segment trimmed and upper-cased when it is non-empty and
    only letters, digits and underscores; otherwise the upper-cased leading
    letter/digit/underscore run of the trimmed description, or "N/A" when
    that run is empty. *)
Theorem extractSubjectCode_spec :
  (forall d,
     extractSubjectCode d =
       if String.eqb d "" then "N/A"
       else
         let s := js_trim d in
         let seg := upper (js_trim (first_segment s)) in
         if negb (String.eqb seg "") && str_forall is_code_char seg then seg
         else if String.eqb (leading_run s) "" then "N/A"
         else upper (leading_run s)) /\
  extractSubjectCode "MATH101 - Algebra" = "MATH101" /\
  extractSubjectCode "intro class" = "INTRO" /\
  extractSubjectCode "  intro class" = "INTRO" /\
  extractSubjectCode "" = "N/A" /\
  extractSubjectCode "!!! - x" = "N/A" /\
  extractSubjectCode "   " = "N/A".
Proof.
  split; [|repeat split; vm_compute; reflexivity].
  intros d. unfold extractSubjectCode, match_leading_word, leading_run.
  destruct (String.eqb d "") eqn:He; [reflexivity|]. cbv zeta.
  rewrite ltrim_js_trim.
  destruct (String.eqb (first_segment (js_trim d)) "") eqn:Hp.
  - apply String.eqb_eq in Hp. rewrite Hp.
    change (upper (js_trim "")) with "". simpl negb. cbv iota.
    destruct (String.eqb (take_while is_word_char (js_trim d)) ""); reflexivity.
  - simpl negb. cbv iota. unfold code_regex_test. rewrite str_forall_list.
    destruct (negb _ && _); [reflexivity|].
    destruct (String.eqb (take_while is_word_char (js_trim d)) ""); reflexivity.
Qed.

(** * Further properties of the server *)

(** ** Character facts (checked over all 256 characters) *)

Ltac all_chars c := destruct c as [[] [] [] [] [] [] [] []]; vm_compute; reflexivity.

Lemma char_upper_idem (c : ascii) : char_upper (char_upper c) = char_upper c.
Proof. all_chars c. Qed.

Lemma is_js_space_upper (c : ascii) : is_js_space (char_upper c) = is_js_space c.
Proof. all_chars c. Qed.

Lemma like_special_upper (c : ascii) : like_special (char_upper c) = like_special c.
Proof. all_chars c. Qed.

Lemma word_char_upper_code (c : ascii) :
  is_word_char c = true -> is_code_char (char_upper c) = true.
Proof. destruct c as [[] [] [] [] [] [] [] []]; vm_compute; congruence. Qed.

Lemma upper_idem (s : string) : upper (upper s) = upper s.
Proof.
  induction s as [|c s IH]; [reflexivity|].
  unfold upper in *; simpl. now rewrite char_upper_idem, IH.
Qed.

Lemma upper_empty (s : string) : upper s = "" <-> s = "".
Proof. unfold upper. destruct s; simpl; split; congruence. Qed.

Lemma lower_empty (s : string) : lower s = "" <-> s = "".
Proof. unfold lower. destruct s; simpl; split; congruence. Qed.

Lemma upper_app (s t : string) : upper (s ++ t) = (upper s ++ upper t)%string.
Proof. induction s as [|c s IH]; [reflexivity|]. unfold upper in *; simpl. now rewrite IH. Qed.

(** ** Trimming *)

Lemma ltrim_upper (s : string) :
  ltrim_by is_js_space (upper s) = upper (ltrim_by is_js_space s).
Proof.
  induction s as [|c s IH]; [reflexivity|]. unfold upper in *; simpl.
  rewrite is_js_space_upper. destruct (is_js_space c); [exact IH|reflexivity].
Qed.

Lemma rtrim_cons_keep (p : ascii -> bool) (c : ascii) (s : string) :
  p c = false -> rtrim_by p (String c s) = String c (rtrim_by p s).
Proof. intros Hc. simpl. now rewrite Hc, andb_false_r. Qed.

Lemma js_trim_shape (s : string) :
  js_trim s = "" /\ ltrim_by is_js_space s = "" \/
  exists c r, js_trim s = String c r /\ is_js_space c = false.
Proof.
  unfold js_trim, trim_by.
  destruct (ltrim_shape is_js_space s) as [->|(c & u & -> & Hc)]; [now left|].
  right. exists c, (rtrim_by is_js_space u). split; [|exact Hc].
  now apply rtrim_cons_keep.
Qed.

Lemma js_trim_cons_nonspace (c : ascii) (s : string) :
  is_js_space c = false -> js_trim (String c s) = String c (rtrim_by is_js_space s).
Proof.
  intros Hc. unfold js_trim, trim_by. simpl. rewrite Hc. now apply rtrim_cons_keep.
Qed.

Lemma js_trim_empty_iff (s : string) :
  js_trim s = "" <-> ltrim_by is_js_space s = "".
Proof.
  split; intros H.
  - destruct (js_trim_shape s) as [[_ H']|(c & r & Hr & _)]; [exact H'|congruence].
  - unfold js_trim, trim_by. now rewrite H.
Qed.

Lemma rtrim_idem (p : ascii -> bool) (s : string) :
  rtrim_by p (rtrim_by p s) = rtrim_by p s.
Proof.
  induction s as [|c s IH]; [reflexivity|]. simpl.
  destruct (String.eqb (rtrim_by p s) "" && p c) eqn:H; [reflexivity|].
  simpl. rewrite IH, H. reflexivity.
Qed.

Lemma js_trim_idem (s : string) : js_trim (js_trim s) = js_trim s.
Proof.
  unfold js_trim at 1, trim_by. rewrite ltrim_js_trim.
  unfold js_trim, trim_by. apply rtrim_idem.
Qed.

Lemma js_trim_upper_empty (s : string) : js_trim (upper s) = "" <-> js_trim s = "".
Proof.
  rewrite !js_trim_empty_iff, ltrim_upper. apply upper_empty.
Qed.

(** ** Day normalisation applied twice (the route and [findSubstitutes]) *)

Lemma prefix_substring (p s : string) :
  String.prefix p s = true -> substring 0 (String.length p) s = p.
Proof.
  revert s. induction p as [|a p IH]; intros [|b s]; simpl; try congruence.
  destruct (ascii_dec a b); [subst; intros H; now rewrite IH|congruence].
Qed.

Lemma normalizeDay_cases (d : string) :
  d <> "" ->
  normalizeDay d = "THUR" \/ normalizeDay d = substring 0 3 (upper (js_trim d)).
Proof.
  intros Hd. unfold normalizeDay. apply String.eqb_neq in Hd. rewrite Hd.
  destruct (existsb _ _); [now left|now right].
Qed.

Lemma normalizeDay_twice_nonempty (d : string) :
  normalizeDay d <> "" -> normalizeDay (normalizeDay d) <> "".
Proof.
  intros Hn.
  assert (Hd : d <> "") by (intros ->; contradiction).
  destruct (normalizeDay_cases d Hd) as [->|Heq]; [discriminate|].
  rewrite Heq in Hn |- *.
  destruct (js_trim_shape d) as [[H0 _]|(c & r & Hr & Hc)].
  - rewrite H0 in Hn. contradiction.
  - rewrite Hr. unfold upper. simpl str_map. simpl substring.
    assert (Hnc : is_js_space (char_upper c) = false) by now rewrite is_js_space_upper.
    set (x := String (char_upper c) _).
    assert (Hx : x <> "") by discriminate.
    destruct (normalizeDay_cases x Hx) as [H1|H1]; rewrite H1; [discriminate|].
    unfold x. rewrite js_trim_cons_nonspace by exact Hnc.
    unfold upper. simpl. discriminate.
Qed.

Lemma findSubstitutes_day (db : store) (id d1 d2 : string) :
  normalizeDay d1 = normalizeDay d2 ->
  findSubstitutes db id d1 = findSubstitutes db id d2.
Proof. intros H. unfold findSubstitutes. now rewrite H. Qed.

(** ** findSubstitutes reads the teacher id case-insensitively *)

Section IdCase.
Variable db : store.
Variables a b : string.
Hypothesis Hab : lower a = lower b.

Lemma q_attendance_lower : q_attendance db a = q_attendance db b.
Proof. unfold q_attendance. now rewrite Hab. Qed.

Lemma q_absent_teacher_info_lower : q_absent_teacher_info db a = q_absent_teacher_info db b.
Proof. unfold q_absent_teacher_info. now rewrite Hab. Qed.

Lemma classes_base_lower (day : string) : classes_base db a day = classes_base db b day.
Proof. unfold classes_base. now rewrite Hab. Qed.

Lemma q_classes_lower (day : string) : q_classes db a day = q_classes db b day.
Proof. unfold q_classes. now rewrite classes_base_lower. Qed.

Lemma q_subs_lower (day : string) : q_subs db a day = q_subs db b day.
Proof. unfold q_subs, subs_base. now rewrite classes_base_lower. Qed.
End IdCase.

(** X1: two ids that agree up to surrounding white space and letter case
    give the same outcome: the same error, or reports that differ at most in
    [absentName] (which echoes the id as typed when no name is known). *)
Theorem findSubstitutes_id_case_insensitive (db : store) (a b day : string) :
  lower (js_trim a) = lower (js_trim b) ->
  result_view (findSubstitutes db a day) = result_view (findSubstitutes db b day).
Proof.
  intros H. unfold findSubstitutes. cbv zeta.
  assert (He : String.eqb (js_trim a) "" = String.eqb (js_trim b) "").
  { destruct (String.eqb_spec (js_trim a) ""), (String.eqb_spec (js_trim b) "");
      try reflexivity; exfalso.
    - apply n. apply lower_empty. rewrite <- H. now rewrite e.
    - apply n. apply lower_empty. rewrite H. now rewrite e. }
  rewrite He. destruct (String.eqb (js_trim b) ""); [reflexivity|].
  destruct (String.eqb (normalizeDay day) ""); [reflexivity|].
  rewrite (q_attendance_lower db _ _ H), (q_absent_teacher_info_lower db _ _ H),
    (q_classes_lower db _ _ H), (q_subs_lower db _ _ H).
  unfold bind, run_query.
  destruct (query_error db QAttendance); [reflexivity|].
  destruct (q_attendance db (js_trim b)) as [|t rest]; [reflexivity|].
  destruct (query_error db QAbsentTeacherInfo); [reflexivity|].
  destruct (negb _); [reflexivity|].
  destruct (query_error db QClasses); [reflexivity|].
  destruct (q_classes db (js_trim b) (normalizeDay day)); [reflexivity|].
  destruct (query_error db QSubs); reflexivity.
Qed.

Lemma findSubstitutes_id_case_insensitive_witness :
  lower (js_trim " t1") = lower (js_trim "T1 ") /\
  result_view (findSubstitutes sample_db " t1" "MON") =
  result_view (findSubstitutes sample_db "T1 " "MON").
Proof.
  split; [vm_compute; reflexivity|].
  apply findSubstitutes_id_case_insensitive. vm_compute. reflexivity.
Defined.

(** ** GET /api/substitute *)

(** X3: through the route, every day whose trimmed, upper-cased form starts
    with THU is searched as Thursday ("THUR"): the route normalises the day
    and [findSubstitutes] normalises the result again, turning "THU" into
    "THUR". *)
Theorem get_substitute_thu_prefix (db : store) (p d : string) :
  String.prefix "THU" (upper (js_trim d)) = true ->
  get_substitute db p d = get_substitute db p "Thursday".
Proof.
  intros Hp.
  assert (Hd : d <> "") by (intros ->; discriminate).
  assert (Hn : normalizeDay d = "THUR" \/ normalizeDay d = "THU").
  { destruct (normalizeDay_cases d Hd) as [H|H]; [now left|right].
    rewrite H. exact (prefix_substring "THU" _ Hp). }
  unfold get_substitute. change (normalizeDay "Thursday") with "THUR".
  destruct Hn as [H|H]; rewrite H; [reflexivity|].
  rewrite (findSubstitutes_day db (upper p) "THU" "THUR" eq_refl). reflexivity.
Qed.

Lemma get_substitute_thu_prefix_witness :
  String.prefix "THU" (upper (js_trim " thunder ")) = true /\
  get_substitute sample_db "T1" " thunder " = get_substitute sample_db "T1" "Thursday".
Proof.
  split; [vm_compute; reflexivity|].
  apply get_substitute_thu_prefix. vm_compute. reflexivity.
Defined.

(** X4: a teacher id made only of white space passes the route's own check
    (it is not empty) and is answered with status 500 and the search's
    "Invalid absent teacher ID." error, not with the route's 400. *)
Theorem get_substitute_blank_id (db : store) (p d : string) :
  p <> "" -> js_trim p = "" -> normalizeDay d <> "" ->
  get_substitute db p d =
  mkResponse 500 (BMessage "Error fetching substitution data: Invalid absent teacher ID.").
Proof.
  intros Hp Ht Hd. unfold get_substitute.
  assert (Hu : String.eqb (upper p) "" = false)
    by (apply String.eqb_neq; rewrite upper_empty; exact Hp).
  apply String.eqb_neq in Hd. rewrite Hu, Hd.
  assert (Hf : findSubstitutes db (upper p) (normalizeDay d) =
               Throw (Error "Invalid absent teacher ID.")).
  { unfold findSubstitutes. cbv zeta.
    rewrite (proj2 (js_trim_upper_empty p) Ht). reflexivity. }
  rewrite Hf. reflexivity.
Qed.

Lemma get_substitute_blank_id_witness :
  get_substitute sample_db " " "MON" =
  mkResponse 500 (BMessage "Error fetching substitution data: Invalid absent teacher ID.").
Proof.
  apply get_substitute_blank_id; [discriminate | vm_compute; reflexivity | discriminate].
Defined.

Lemma findSubstitutes_valid_inputs (db : store) (p d : string) :
  js_trim (upper p) <> "" -> normalizeDay d <> "" ->
  findSubstitutes db (upper p) (normalizeDay d) =
  let absentTeacherId := js_trim (upper p) in
  let targetDay := normalizeDay (normalizeDay d) in
  let* attRows := run_query db QAttendance (q_attendance db absentTeacherId) in
  match attRows with
  | [] =>
      Ok (mkReport ("Teacher ID: " ++ absentTeacherId)%string "N/A" []
            (Some "Teacher not found"))
  | teacherRow :: _ =>
      let isAbsent := String.eqb (upper (js_trim (attendance teacherRow))) "ABSENT" in
      let absentTeacherName :=
        if String.eqb (teacher_name teacherRow) ""
        then ("Teacher ID: " ++ absentTeacherId)%string
        else teacher_name teacherRow in
      let* absentInfo :=
        run_query db QAbsentTeacherInfo (q_absent_teacher_info db absentTeacherId) in
      let absentTeacherSubjectDetail :=
        match absentInfo with
        | [] => "N/A"
        | r :: _ => snd r
        end in
      if negb isAbsent then
        Ok (mkReport absentTeacherName absentTeacherSubjectDetail [] (Some NOT_ABSENT_NOTE))
      else
        wrap_db_failure (
          let* classes := run_query db QClasses (q_classes db absentTeacherId targetDay) in
          match classes with
          | [] => Ok (mkReport absentTeacherName absentTeacherSubjectDetail [] None)
          | _ :: _ =>
              let* subs := run_query db QSubs (q_subs db absentTeacherId targetDay) in
              Ok (mkReport absentTeacherName absentTeacherSubjectDetail
                    (build_schedule classes subs) None)
          end)
  end.
Proof.
  intros Hp Hd. unfold findSubstitutes at 1. cbv zeta.
  apply normalizeDay_twice_nonempty, String.eqb_neq in Hd.
  apply String.eqb_neq in Hp. now rewrite Hp, Hd.
Qed.

Lemma upper_nonempty_of_trim (p : string) : js_trim (upper p) <> "" -> upper p <> "".
Proof. intros H E. apply H. rewrite E. reflexivity. Qed.

(** X5: an id that names no teacher is answered with status 200, the name
    "Teacher ID: <ID>" (the id upper-cased and trimmed), subject "N/A", an
    empty schedule and the note "Teacher not found". *)
Theorem get_substitute_unknown_teacher (db : store) (p d : string) :
  js_trim (upper p) <> "" -> normalizeDay d <> "" ->
  query_error db QAttendance = None ->
  lookup_teacher db (js_trim (upper p)) = None ->
  get_substitute db p d =
  mkResponse 200 (BSubstitution ("Teacher ID: " ++ js_trim (upper p))%string "N/A" []
                    (Some "Teacher not found")).
Proof.
  intros Hp Hd Hq Hl.
  pose proof (upper_nonempty_of_trim p Hp) as Hu.
  unfold get_substitute. rewrite findSubstitutes_valid_inputs by assumption. cbv zeta.
  apply String.eqb_neq in Hu, Hd. rewrite Hu, Hd.
  unfold bind, run_query. rewrite Hq, q_attendance_lookup, Hl. reflexivity.
Qed.

Lemma get_substitute_unknown_teacher_witness :
  get_substitute sample_db "t9" "monday" =
  mkResponse 200 (BSubstitution "Teacher ID: T9" "N/A" [] (Some "Teacher not found")).
Proof.
  apply (get_substitute_unknown_teacher sample_db "t9" "monday");
    [vm_compute; discriminate | vm_compute; discriminate | reflexivity
    | vm_compute; reflexivity].
Defined.

(** X6: when the first read (attendance) fails, the client receives status
    500 with the store's own error message ("unknown" when it is empty). *)
Theorem get_substitute_attendance_failure (db : store) (p d cause : string) :
  js_trim (upper p) <> "" -> normalizeDay d <> "" ->
  query_error db QAttendance = Some cause ->
  get_substitute db p d =
  mkResponse 500 (BMessage ("Error fetching substitution data: "
                            ++ (if String.eqb cause "" then "unknown" else cause))%string).
Proof.
  intros Hp Hd Hq.
  pose proof (upper_nonempty_of_trim p Hp) as Hu.
  unfold get_substitute. rewrite findSubstitutes_valid_inputs by assumption. cbv zeta.
  apply String.eqb_neq in Hu, Hd. rewrite Hu, Hd.
  unfold bind, run_query. rewrite Hq. reflexivity.
Qed.

Lemma get_substitute_attendance_failure_witness :
  get_substitute (failing_on QAttendance) "t1" "MON" =
  mkResponse 500 (BMessage "Error fetching substitution data: connect ECONNREFUSED").
Proof.
  apply (get_substitute_attendance_failure (failing_on QAttendance) "t1" "MON"
           "connect ECONNREFUSED");
    [vm_compute; discriminate | vm_compute; discriminate | reflexivity].
Defined.

(** ** extractSubjectCode always yields "N/A" or a code *)

Lemma take_while_word_upper_code (s : string) :
  str_forall is_code_char (upper (take_while is_word_char s)) = true.
Proof.
  induction s as [|c s IH]; [reflexivity|]. simpl.
  destruct (is_word_char c) eqn:Hc; [|reflexivity].
  unfold upper in *. simpl. now rewrite word_char_upper_code, IH.
Qed.

(** X2: the subject code of a description is "N/A" or a non-empty string of
    upper-case letters, digits and underscores. *)
Theorem extractSubjectCode_code_or_na (d : string) :
  extractSubjectCode d = "N/A" \/
  (extractSubjectCode d <> "" /\ str_forall is_code_char (extractSubjectCode d) = true).
Proof.
  unfold extractSubjectCode.
  destruct (String.eqb d ""); [now left|]. cbv zeta.
  destruct (negb (String.eqb (first_segment (js_trim d)) "")).
  - destruct (code_regex_test (upper (js_trim (first_segment (js_trim d))))) eqn:Hc.
    + right. unfold code_regex_test in Hc. apply andb_true_iff in Hc as [Hn Hf].
      apply negb_true_iff, String.eqb_neq in Hn. rewrite str_forall_list. now split.
    + unfold match_leading_word.
      destruct (String.eqb (take_while is_word_char (ltrim_by is_js_space (js_trim d))) "")
        eqn:Hr; [now left|].
      right. apply String.eqb_neq in Hr. split; [now rewrite upper_empty|].
      apply take_while_word_upper_code.
  - unfold match_leading_word.
    destruct (String.eqb (take_while is_word_char (ltrim_by is_js_space (js_trim d))) "")
      eqn:Hr; [now left|].
    right. apply String.eqb_neq in Hr. split; [now rewrite upper_empty|].
    apply take_while_word_upper_code.
Qed.

(** ** GET /api/teachers *)





(** ** POST /api/attendance *)




Lemma filter_all_false {A} (f : A -> bool) (l : list A) :
  (forall u, In u l -> f u = false) -> filter f l = [].
Proof.
  induction l as [|u l IH]; simpl; intros H; [reflexivity|].
  rewrite H by now left. apply IH. intros v Hv. apply H. now right.
Qed.

Lemma filter_unique_lower (l : list teacher_row) (x : teacher_row) :
  teacher_ids_unique l = true -> In x l ->
  filter (fun y => String.eqb (lower (teacher_id y)) (lower (teacher_id x))) l = [x].
Proof.
  induction l as [|y l IH]; simpl; [contradiction|].
  intros Hu Hin. apply andb_true_iff in Hu as [Hn Hu]. apply negb_true_iff in Hn.
  destruct Hin as [<-|Hin].
  - rewrite String.eqb_refl. f_equal. apply filter_all_false. intros u Hu'.
    destruct (String.eqb (lower (teacher_id u)) (lower (teacher_id y))) eqn:E;
      [|reflexivity].
    exfalso. assert (existsb (fun u => String.eqb (lower (teacher_id u))
                                         (lower (teacher_id y))) l = true)
      by (apply existsb_exists; eauto).
    congruence.
  - destruct (String.eqb (lower (teacher_id y)) (lower (teacher_id x))) eqn:E.
    + exfalso. apply String.eqb_eq in E.
      assert (existsb (fun u => String.eqb (lower (teacher_id u))
                                  (lower (teacher_id y))) l = true).
      { apply existsb_exists. exists x. split; [exact Hin|].
        apply String.eqb_eq. auto. }
      congruence.
    + auto.
Qed.

(** X9: after POST /api/attendance answers 200 for a trimmed id (teacher ids
    being distinct up to letter case), [findSubstitutes] for that id reads the
    new status: it treats the teacher as absent exactly when the trimmed,
    upper-cased status is ABSENT, and otherwise reports the not-absent note. *)
Theorem post_attendance_then_findSubstitutes (db : store) (errs : route_errors)
    (tid : string) (st : jvalue) (msg : string) (db' : store) (day : string) :
  (forall q, query_error db q = None) ->
  teacher_ids_unique (teacher_attendance db) = true ->
  js_trim tid = tid ->
  normalizeDay day <> "" ->
  post_attendance db errs (JString tid) st = (mkResponse 200 (BMessage msg), db') ->
  exists r, findSubstitutes db' tid day = Ok r /\
    note r = (if String.eqb (upper (js_trim (js_to_string st))) "ABSENT"
              then None else Some NOT_ABSENT_NOTE).
Proof.
  intros Hq Hu Ht Hd H. unfold post_attendance in H.
  destruct (negb (js_truthy (JString tid)) || negb (js_truthy st)) eqn:Hv;
    [inversion H|].
  destruct (Nat.ltb 50 (String.length tid)); [inversion H|].
  destruct (errs QUpdateAttendance); [inversion H|].
  destruct (Nat.eqb (length (filter (fun t => String.eqb (teacher_id t) tid)
                                (teacher_attendance db))) 0) eqn:Hz; [inversion H|].
  injection H as _ Hdb. subst db'.
  apply orb_false_iff in Hv as [Hv _]. simpl in Hv.
  destruct (String.eqb tid "") eqn:Hne; [discriminate Hv|].
  set (v := js_trim (js_to_string st)).
  destruct (filter (fun t => String.eqb (teacher_id t) tid) (teacher_attendance db))
    as [|t rest] eqn:Hf; [discriminate|].
  assert (Htin : In t (filter (fun t => String.eqb (teacher_id t) tid) (teacher_attendance db)))
    by (rewrite Hf; now left).
  apply filter_In in Htin as [Htin Hid]. apply String.eqb_eq in Hid.
  assert (Hatt : q_attendance (set_attendance db tid v) tid =
                 [mkTeacher (teacher_id t) (teacher_name t) v]).
  { unfold q_attendance, set_attendance. simpl teacher_attendance.
    rewrite filter_map_swap.
    rewrite (filter_ext_in _
               (fun y => String.eqb (lower (teacher_id y)) (lower (teacher_id t)))).
    - rewrite (filter_unique_lower _ t Hu Htin). simpl.
      rewrite Hid, String.eqb_refl. reflexivity.
    - intros y _. rewrite Hid. destruct (String.eqb (teacher_id y) tid); reflexivity. }
  unfold findSubstitutes. cbv zeta. rewrite Ht, Hne.
  apply String.eqb_neq in Hd. rewrite Hd.
  rewrite Hatt. unfold bind, run_query.
  change (query_error (set_attendance db tid v)) with (query_error db). rewrite !Hq. simpl attendance.
  unfold v. rewrite js_trim_idem.
  destruct (String.eqb (upper (js_trim (js_to_string st))) "ABSENT"); simpl negb; cbv iota.
  - destruct (q_classes _ _ _); eexists; split; reflexivity.
  - eexists; split; reflexivity.
Qed.

Lemma post_attendance_then_findSubstitutes_witness :
  exists r, findSubstitutes
              (snd (post_attendance sample_db no_errors (JString "T2") (JString " absent ")))
              "T2" "MON" = Ok r /\ note r = None.
Proof.
  apply (post_attendance_then_findSubstitutes sample_db no_errors "T2" (JString " absent ")
           "Teacher T2 marked as absent."
           (snd (post_attendance sample_db no_errors (JString "T2") (JString " absent ")))
           "MON");
    [intros q; reflexivity | vm_compute; reflexivity | vm_compute; reflexivity
    | discriminate | vm_compute; reflexivity].
Defined.

(** ** GET /api/debug/free agrees with the candidate search *)

Lemma tt_exists_day (db : store) (tid d1 d2 : string) (k : nat) (free : bool) :
  upper d1 = upper d2 -> tt_exists db tid d1 k free = tt_exists db tid d2 k free.
Proof. intros H. unfold tt_exists. now rewrite H. Qed.

Lemma in_q_debug_free (db : store) (day : string) (k : nat) (tid name : string) :
  In (tid, name) (q_debug_free db day k) <->
  exists t, In t (teacher_attendance db) /\ teacher_id t = tid /\ teacher_name t = name /\
    String.eqb (upper (sql_trim (attendance t))) "PRESENT" = true /\
    (tt_exists db (teacher_id t) day k true
     || negb (tt_exists db (teacher_id t) day k false)) = true.
Proof.
  unfold q_debug_free. rewrite in_map_iff. split.
  - intros (t & Ht & Hin). apply in_sort_by, filter_In in Hin as [Hin Hc].
    apply andb_true_iff in Hc as [H1 H2]. injection Ht as <- <-. eauto 7.
  - intros (t & Hin & <- & <- & H1 & H2). exists t. split; [reflexivity|].
    apply in_sort_by, filter_In. split; [exact Hin|]. now rewrite H1, H2.
Qed.

(** X10: for a day and a class of the absent teacher at slot [k], the
    teachers the debug route lists as free at [k] are exactly the teachers
    the search offers for that class, apart from the absent teacher's own id
    (which the search excludes). *)
Theorem debug_free_matches_candidates (db : store) (id day : string) :
  (forall r, In r (q_subs db id day) ->
     In (substitute_teacher_id r, substitute_teacher_name r)
        (q_debug_free db day (s_slot_id r))) /\
  (forall c, In c (q_classes db id day) ->
   forall tid name, In (tid, name) (q_debug_free db day (c_slot_id c)) ->
     lower tid <> lower id ->
     exists r, In r (q_subs db id day) /\ s_slot_id r = c_slot_id c /\
       s_class_to_cover r = class_to_cover c /\
       substitute_teacher_id r = tid /\ substitute_teacher_name r = name).
Proof.
  split.
  - intros r Hr. unfold q_subs in Hr. apply in_sort_by, in_subs_base in Hr.
    destruct Hr as (c & t & sa & Hc & Ht & Hj & Hw & _ & ->). simpl.
    apply in_classes_base in Hc as (tt & ts & _ & _ & Hday & _ & _ & _ & ->). simpl in *.
    apply in_q_debug_free. exists t. repeat split; auto.
    + unfold join_cond in Hj. now apply andb_true_iff in Hj as [Hj _].
    + unfold where_cond in Hw. simpl in Hw.
      now rewrite !(tt_exists_day db (teacher_id t) day (day_of_week tt)) by auto.
  - intros c Hc tid name Hf Hne. unfold q_classes in Hc. apply in_sort_by in Hc.
    apply in_q_debug_free in Hf as (t & Ht & <- & <- & Hp & Hw).
    destruct (left_join_agg_nonempty db (teacher_id t)) as [sa Hsa].
    pose proof Hc as Hc'.
    apply in_classes_base in Hc' as (tt & ts & _ & Hid & Hday & _ & _ & _ & Heq).
    eexists. split.
    + unfold q_subs. apply in_sort_by, in_subs_base.
      exists c, t, sa. repeat split; eauto.
      * unfold join_cond. rewrite Hp. simpl. apply negb_true_iff, String.eqb_neq.
        rewrite Heq. simpl. rewrite Hid. exact Hne.
      * unfold where_cond. rewrite Heq. simpl.
        rewrite !(tt_exists_day db (teacher_id t) (day_of_week tt) day) by auto.
        rewrite Heq in Hw. exact Hw.
    + simpl. auto.
Qed.

(** ** GET /api/debug/timetable *)

Lemma like_pct (s : string) : like_match "%" s = true.
Proof. induction s as [|c s IH]; [reflexivity|]. simpl. exact IH. Qed.

Lemma like_prefix (q s : string) :
  str_forall (fun c => negb (like_special c)) q = true ->
  like_match (q ++ "%") s = String.prefix q s.
Proof.
  revert s. induction q as [|c q IH]; intros s Hq.
  - simpl append. rewrite like_pct. destruct s; reflexivity.
  - simpl in Hq. apply andb_true_iff in Hq as [Hc Hq].
    apply negb_true_iff in Hc. unfold like_special in Hc.
    apply orb_false_iff in Hc as [Hc H3]. apply orb_false_iff in Hc as [H1 H2].
    simpl append. simpl like_match. rewrite H1, H2, H3.
    destruct s as [|d s]; [reflexivity|]. simpl.
    destruct (ascii_dec c d) as [<-|Hcd].
    + rewrite Ascii.eqb_refl. simpl. now apply IH.
    + destruct (Ascii.eqb_spec d c); [congruence|reflexivity].
Qed.

Lemma upper_no_special (s : string) :
  str_forall (fun c => negb (like_special c)) s = true ->
  str_forall (fun c => negb (like_special c)) (upper s) = true.
Proof.
  induction s as [|c s IH]; [reflexivity|]. unfold upper in *. simpl.
  rewrite like_special_upper. intros H. apply andb_true_iff in H as [H1 H2].
  rewrite H1. auto.
Qed.

Lemma tt_le_total (a b : timetable_row) : tt_le a b = false -> tt_le b a = true.
Proof.
  unfold tt_le. rewrite String.eqb_sym.
  destruct (String.eqb (tt_teacher_id b) (tt_teacher_id a)).
  - intros H. apply Nat.leb_gt in H. apply Nat.leb_le. lia.
  - apply string_leb_total.
Qed.

Lemma tt_le_trans (a b c : timetable_row) :
  tt_le a b = true -> tt_le b c = true -> tt_le a c = true.
Proof.
  unfold tt_le.
  destruct (String.eqb_spec (tt_teacher_id a) (tt_teacher_id b)) as [Eab|Nab];
  destruct (String.eqb_spec (tt_teacher_id b) (tt_teacher_id c)) as [Ebc|Nbc];
  intros H1 H2.
  - rewrite Eab, Ebc, String.eqb_refl. apply Nat.leb_le in H1, H2. apply Nat.leb_le. lia.
  - rewrite Eab. destruct (String.eqb_spec (tt_teacher_id b) (tt_teacher_id c));
      [contradiction|exact H2].
  - rewrite <- Ebc. destruct (String.eqb_spec (tt_teacher_id a) (tt_teacher_id b));
      [contradiction|exact H1].
  - destruct (String.eqb_spec (tt_teacher_id a) (tt_teacher_id c)) as [Eac|Nac].
    + exfalso. rewrite Eac in H1. apply Nbc.
      apply String.leb_antisym; assumption.
    + exact (string_leb_trans _ _ _ H1 H2).
Qed.

(** X11: for a day parameter without the LIKE characters %, _ and \, the
    debug timetable route returns exactly the timetable rows whose
    upper-cased day starts with the upper-cased parameter, ordered by
    teacher id and then slot; "" therefore lists the whole timetable. *)
Theorem get_debug_timetable_prefix (db : store) (errs : route_errors) (p : string) :
  str_forall (fun c => negb (like_special c)) p = true ->
  errs QDebugTimetable = None ->
  exists rows, get_debug_timetable db errs p = mkResponse 200 (BTimetable rows) /\
    Permutation rows
      (filter (fun t => String.prefix (upper p) (upper (day_of_week t)))
         (teacher_timetable db)) /\
    StronglySorted (fun a b => tt_le a b = true) rows.
Proof.
  intros Hp He. unfold get_debug_timetable. rewrite He, upper_idem.
  eexists. split; [reflexivity|]. split.
  - rewrite sort_by_perm. apply Permutation_refl'. apply filter_ext. intros t.
    apply like_prefix, upper_no_special, Hp.
  - exact (sort_by_sorted _ tt_le tt_le_total tt_le_trans _).
Qed.

Lemma get_debug_timetable_prefix_witness :
  exists rows, get_debug_timetable sample_db no_errors "mo" = mkResponse 200 (BTimetable rows) /\
    Permutation rows
      (filter (fun t => String.prefix (upper "mo") (upper (day_of_week t)))
         (teacher_timetable sample_db)) /\
    StronglySorted (fun a b => tt_le a b = true) rows.
Proof. apply get_debug_timetable_prefix; reflexivity. Defined.

Lemma debug_free_matches_candidates_witness :
  In (substitute_teacher_id (hd dummy_sub (q_subs sample_db "T1" "MON")),
      substitute_teacher_name (hd dummy_sub (q_subs sample_db "T1" "MON")))
     (q_debug_free sample_db "MON"
        (s_slot_id (hd dummy_sub (q_subs sample_db "T1" "MON")))).
Proof.
  apply (proj1 (debug_free_matches_candidates sample_db "T1" "MON")).
  vm_compute. left. reflexivity.
Defined.

(** ** CORS allow-list *)

Lemma string_app_nil_r (s : string) : (s ++ "")%string = s.
Proof. induction s as [|c s IH]; simpl; [reflexivity|now rewrite IH]. Qed.

Lemma split_char_nonempty (sep : ascii) (s : string) : split_char sep s <> [].
Proof.
  induction s as [|c s IH]; simpl; [discriminate|].
  destruct (Ascii.eqb c sep); [discriminate|].
  destruct (split_char sep s); [contradiction|discriminate].
Qed.

Lemma split_char_app (sep : ascii) (e rest : string) :
  str_forall (fun c => negb (Ascii.eqb c sep)) e = true ->
  split_char sep (e ++ rest) = prepend_first e (split_char sep rest).
Proof.
  induction e as [|c e IH]; intros He.
  - simpl. destruct (split_char sep rest) eqn:E; [|reflexivity].
    exfalso. exact (split_char_nonempty sep rest E).
  - simpl in He. apply andb_true_iff in He as [Hc He]. apply negb_true_iff in Hc.
    simpl. rewrite Hc, IH by exact He.
    destruct (split_char sep rest); reflexivity.
Qed.

Lemma split_concat (l : list string) :
  l <> [] -> Forall (fun e => str_forall (fun c => negb (Ascii.eqb c ",")) e = true) l ->
  split_char "," (String.concat "," l) = l.
Proof.
  induction l as [|e l IH]; intros Hne Hf; [contradiction|].
  inversion Hf as [|? ? He Hl]; subst.
  destruct l as [|e' l'].
  - simpl. rewrite <- (string_app_nil_r e) at 1. rewrite split_char_app by exact He.
    simpl. now rewrite string_app_nil_r.
  - change (String.concat "," (e :: e' :: l'))
      with (e ++ "," ++ String.concat "," (e' :: l'))%string.
    rewrite split_char_app by exact He.
    change (split_char "," ("," ++ String.concat "," (e' :: l'))%string)
      with ("" :: split_char "," (String.concat "," (e' :: l'))).
    rewrite IH by (discriminate || exact Hl). simpl. now rewrite string_app_nil_r.
Qed.

(** X12: in production, with ALLOWED_ORIGINS a non-empty comma-separated
    list, a request is let through exactly when it has no (or an empty)
    Origin header or its Origin equals one of the list's entries after
    trimming; any other Origin is refused with "Not allowed by CORS". *)
Theorem cors_production_allowlist (entries : list string) (o : option string) :
  entries <> [] ->
  Forall (fun e => str_forall (fun c => negb (Ascii.eqb c ",")) e = true) entries ->
  String.concat "," entries <> "" ->
  cors_check "production" (String.concat "," entries) o =
  match o with
  | None => AllowOrigin
  | Some o' =>
      if String.eqb o' "" || existsb (String.eqb o') (map js_trim entries)
      then AllowOrigin else CorsError "Not allowed by CORS"
  end.
Proof.
  intros Hne Hf Hs. unfold cors_check, allowed_origins.
  apply String.eqb_neq in Hs. rewrite Hs, split_concat by assumption.
  destruct entries as [|e l]; [contradiction|]. simpl length. simpl andb.
  destruct o as [o'|]; [|reflexivity].
  destruct (String.eqb o' ""); reflexivity.
Qed.

Lemma cors_production_allowlist_witness :
  cors_check "production" (String.concat "," [" https://a.com"; "https://b.com "])
    (Some "https://b.com") = AllowOrigin.
Proof.
  apply (cors_production_allowlist [" https://a.com"; "https://b.com "]
           (Some "https://b.com"));
    [discriminate | repeat constructor | discriminate].
Defined.

(** ** The subjects_agg CTE *)






